(** * s5p-compress: resample a raster cube in time and export one GeoTIFF per step

    A shallow embedding of [s5p-compress.py]. The script is an orchestration of
    [os], [rioxarray]/[xarray], [geopandas] and [multiprocessing]; the embedding
    keeps the script's control flow and data flow and threads an explicit
    [World] (file system, standard input, a log of the calls performed)
    through an error-and-state monad. *)

From Stdlib Require Import QArith Qminmax Qabs Ascii String.
From stdpp Require Import base gmap strings list.

Open Scope string_scope.
Open Scope list_scope.

(** ** Python outcomes *)

(** The exceptions the script can meet. [OtherError] stands for any exception
    class that is not named in the script. *)
Inductive Exn :=
| KeyError
| IndexError
| EOFError
| FileExistsError
| NotADirectoryError
| OtherError (name : string).

(** A computation returns, raises, or leaves through [exit(code)]
    ([SystemExit], which no handler of the script catches). *)
Inductive Outcome (A : Type) :=
| Return (a : A)
| Raise (e : Exn)
| SysExit (code : Z).
Arguments Return {A} a.
Arguments Raise {A} e.
Arguments SysExit {A} code.

Definition is_KeyError (e : Exn) : bool :=
  match e with KeyError => true | _ => false end.

(** ** Arrays *)

(** The calendar time stamps of the cube's time axis
    (they answer [strftime], so they are calendar objects). *)
Record Timestamp := mkTimestamp {
  year : nat; month : nat; day : nat;
  hour : nat; minute : nat; second : nat
}.

(** A band: a (time, y, x) array with its coordinates. A cell is [None] when
    it holds the missing value (NaN); numbers are exact rationals. *)
Record DataArray := mkDataArray {
  da_time : list Timestamp;
  da_y : list Q;
  da_x : list Q;
  da_values : nat -> nat -> nat -> option Q
}.

(** One time step of a band: what [isel(time=index)] selects. *)
Record Raster := mkRaster {
  r_y : list Q;
  r_x : list Q;
  r_values : nat -> nat -> option Q
}.

(** What [rioxarray.open_rasterio] hands back: indexing by name either
    yields a band or raises; [data_vars] lists the variable names. *)
Record Dataset := mkDataset {
  ds_getitem : string -> Exn + DataArray;
  data_vars : list string
}.

(** ** The geospatial libraries

    The operations of xarray, rioxarray, geopandas and shapely that the script
    calls and whose results it only passes on: the bins a frequency string
    cuts a time axis into, and the geometry operations. *)
Class GeoLib := {
  Geometry : Type;
  GeoJSON : Type;
  (** the labels of the bins [resample(time=freq)] makes, in time order *)
  resample_bins : string -> list Timestamp -> list Timestamp;
  (** [in_bin freq label t]: time stamp [t] falls in the bin named [label] *)
  in_bin : string -> Timestamp -> Timestamp -> bool;
  (** reprojection of one geometry from a source to a target CRS *)
  reproject : string -> string -> Geometry -> Geometry;
  (** [GeoSeries.simplify(tolerance)] on one geometry *)
  simplify : Q -> Geometry -> Geometry;
  (** [shapely.geometry.mapping] *)
  mapping : Geometry -> GeoJSON;
  (** [rio.clip(geometries, crs)] *)
  rio_clip : Raster -> list GeoJSON -> string -> Raster
}.

Section Embedding.
Context `{lib : GeoLib}.

(** A [GeoDataFrame], as far as the script looks at it. *)
Record GeoDataFrame := mkGeoDataFrame {
  geometry : list Geometry;
  crs : string
}.

(** ** The world *)

(** What a path of the file system holds. *)
Inductive Node :=
| Dir
| NetCDF (cube : Dataset)
| Shapefile (shapes : GeoDataFrame)
| GeoTIFF (r : Raster)
| OtherFile.

(** The calls with an effect, in the order they happen. *)
Inductive Event :=
| Wrote (text : string)                             (* tqdm.write *)
| Opened (path : string) (chunk : Z)                (* rioxarray.open_rasterio *)
| Prompted (prompt : string)                        (* input *)
| Resampled (freq dim : string) (skipna : option bool)
| ReadShapes (path : string)                        (* geopandas.read_file *)
| Reprojected (target : string)                     (* to_crs *)
| Simplified (tolerance : Q)                        (* geometry.simplify *)
| MadeDirs (path : string) (exist_ok : bool)        (* os.makedirs *)
| ToRaster (index : nat) (path : string) (clipped : bool) (r : Raster).

Record World := mkWorld {
  fs : gmap string Node;
  stdin : list string;
  (** the order in which the pool's workers complete [n] tasks *)
  pool_order : nat -> list nat;
  trace : list Event
}.

(** ** The monad of the script: state and Python outcomes *)

Definition M (A : Type) : Type := World -> Outcome A * World.

Definition ret {A} (a : A) : M A := fun w => (Return a, w).

Definition bind {A B} (m : M A) (k : A -> M B) : M B :=
  fun w =>
    match m w with
    | (Return a, w') => k a w'
    | (Raise e, w') => (Raise e, w')
    | (SysExit c, w') => (SysExit c, w')
    end.

Definition raise {A} (e : Exn) : M A := fun w => (Raise e, w).

(** [exit(code)] *)
Definition exit {A} (code : Z) : M A := fun w => (SysExit code, w).

(** The world after the calls [evs] were added to its log. *)
Definition log (evs : list Event) (w : World) : World :=
  mkWorld (fs w) (stdin w) (pool_order w) (trace w ++ evs).

Definition emit (e : Event) : M unit := fun w => (Return tt, log [e] w).

Definition get_fs : M (gmap string Node) := fun w => (Return (fs w), w).

Definition put_fs (f : gmap string Node) : M unit :=
  fun w => (Return tt, mkWorld f (stdin w) (pool_order w) (trace w)).

End Embedding.

Notation "x <- m ;; k" := (bind m (fun x => k))
  (at level 100, m at next level, right associativity).
Notation "m ;;; k" := (bind m (fun _ => k))
  (at level 100, right associativity).

Section Script.
Context `{lib : GeoLib}.

(** ** The primitives the script calls *)

(** The strings ["\n"] and ["\t"] of Python. *)
Definition NL : string := String "010"%char EmptyString.
Definition TAB : string := String "009"%char EmptyString.

Fixpoint for_each {A} (l : list A) (body : A -> M unit) : M unit :=
  match l with
  | [] => ret tt
  | a :: rest => body a ;;; for_each rest body
  end.

(** [try: body  except <caught>: handler] *)
Definition try_except {A} (body : M A) (caught : Exn -> bool) (handler : M A) : M A :=
  fun w =>
    match body w with
    | (Raise e, w') => if caught e then handler w' else (Raise e, w')
    | r => r
    end.

Definition tqdm_write (text : string) : M unit := emit (Wrote text).

(** [os.path.exists] *)
Definition exists_ (path : string) : M bool :=
  f <- get_fs ;;
  ret (match f !! path with Some _ => true | None => false end).

(** [rioxarray.open_rasterio(path, chunks={'time': chunk_size})]: the chunk
    size only bounds memory, the cube read is the one stored at [path]. *)
Definition open_rasterio (path : string) (chunk_size : Z) : M Dataset :=
  emit (Opened path chunk_size) ;;;
  f <- get_fs ;;
  match f !! path with
  | Some (NetCDF cube) => ret cube
  | _ => raise (OtherError "RasterioIOError")
  end.

(** [DS[name]] *)
Definition getitem (DS : Dataset) (name : string) : M DataArray :=
  match ds_getitem DS name with
  | inl e => raise e
  | inr band => ret band
  end.

(** [input(prompt)]: the next line of standard input, [EOFError] at its end. *)
Definition input (prompt : string) : M string :=
  emit (Prompted prompt) ;;;
  fun w =>
    match stdin w with
    | [] => (Raise EOFError, w)
    | line :: rest => (Return line, mkWorld (fs w) rest (pool_order w) (trace w))
    end.

(** ** The band selector: lines 32-40 *)

(** One turn of the [while True] loop: [inl band] is the [break], [inr name]
    goes round again with the name that was typed. *)
Definition band_step (DS : Dataset) (band_name : string) : M (DataArray + string) :=
  try_except
    (band <- getitem DS band_name ;; ret (inl band))
    is_KeyError
    (tqdm_write "The band name does not exist. The following bands were found:" ;;;
     for_each (data_vars DS)
       (fun variable => tqdm_write (TAB +:+ variable)) ;;;
     name <- input "Band name: " ;;
     ret (inr name)).

(** The loop, with one unit of fuel per line that standard input still holds:
    a turn that goes round again has read a line. *)
Fixpoint while_band (fuel : nat) (DS : Dataset) (band_name : string)
  : M (DataArray * string) :=
  r <- band_step DS band_name ;;
  match r with
  | inl band => ret (band, band_name)
  | inr name =>
      match fuel with
      | O => raise (OtherError "out of fuel")
      | S fuel' => while_band fuel' DS name
      end
  end.

Definition select_band (DS : Dataset) (band_name : string) : M (DataArray * string) :=
  fun w => while_band (length (stdin w)) DS band_name w.

(** ** The temporal resampler: line 42 *)

Definition Qsum (l : list Q) : Q := foldr Qplus 0%Q l.

(** The cells that hold a number. *)
Definition present (cells : list (option Q)) : list Q := omap id cells.

(** The mean of the numbers among [cells]; missing when there is none. *)
Definition nanmean (cells : list (option Q)) : option Q :=
  match present cells with
  | [] => None
  | qs => Some (Qsum qs / inject_Z (Z.of_nat (length qs)))%Q
  end.

(** Modelled from the spec: the reduction [mean(skipna=...)] of xarray, which
    is library code. With [skipna] false one missing cell makes the mean
    missing; with [skipna] true, or left at [None] (the default, which for
    floating-point data is to skip), missing cells are left out. *)
Definition mean_cells (skipna : option bool) (cells : list (option Q)) : option Q :=
  match skipna with
  | Some false =>
      if forallb (fun c => match c with Some _ => true | None => false end) cells
      then nanmean cells else None
  | _ => nanmean cells
  end.

(** The indices of the time steps whose stamp falls in the bin [label]. *)
Definition steps_in_bin (freq : string) (label : Timestamp) (times : list Timestamp)
  : list nat :=
  map fst (List.filter (fun it => in_bin freq label (snd it))
                       (combine (seq 0 (length times)) times)).

(** Modelled from the spec: [band.resample(time=freq).mean(dim='time',
    skipna=skipna)] of xarray, which is library code. The time axis becomes
    the bins of [freq]; the spatial axes are kept; a cell of bin [k] reduces
    the same cell of the time steps in that bin. *)
Definition resample_mean (freq : string) (skipna : option bool) (band : DataArray)
  : DataArray :=
  let bins := resample_bins freq (da_time band) in
  mkDataArray bins (da_y band) (da_x band)
    (fun k iy ix =>
       match bins !! k with
       | None => None
       | Some label =>
           mean_cells skipna
             (map (fun i => da_values band i iy ix)
                  (steps_in_bin freq label (da_time band)))
       end).

Definition resample_then_mean (freq dim : string) (skipna : option bool)
  (band : DataArray) : M DataArray :=
  emit (Resampled freq dim skipna) ;;;
  ret (resample_mean freq skipna band).

(** ** The mask builder: lines 44-55 *)

(** [axis[i]] on a coordinate axis *)
Definition coord (axis : list Q) (i : nat) : M Q :=
  match axis !! i with
  | Some c => ret c
  | None => raise IndexError
  end.

(** Python's [min(a, b)]: the first argument unless the second is smaller. *)
Definition py_min (a b : Q) : Q :=
  if Qle_bool a b then a else b.

(** Lines 48-49. *)
Definition spatial_resolution (ds : DataArray) : M Q :=
  x1 <- coord (da_x ds) 1 ;;
  x0 <- coord (da_x ds) 0 ;;
  y1 <- coord (da_y ds) 1 ;;
  y0 <- coord (da_y ds) 0 ;;
  let delta_x := Qabs (x1 - x0) in
  let delta_y := Qabs (y1 - y0) in
  ret (py_min delta_x delta_y / 2)%Q.

(** [geopandas.read_file] *)
Definition read_file (path : string) : M GeoDataFrame :=
  emit (ReadShapes path) ;;;
  f <- get_fs ;;
  match f !! path with
  | Some (Shapefile shapes) => ret shapes
  | _ => raise (OtherError "DriverError")
  end.

(** [GeoDataFrame.to_crs] *)
Definition to_crs (shapes : GeoDataFrame) (target : string) : M GeoDataFrame :=
  emit (Reprojected target) ;;;
  ret (mkGeoDataFrame (map (reproject (crs shapes) target) (geometry shapes)) target).

(** [shapefile.geometry = shapefile.geometry.simplify(tolerance)] *)
Definition simplify_geometry (shapes : GeoDataFrame) (tolerance : Q) : M GeoDataFrame :=
  emit (Simplified tolerance) ;;;
  ret (mkGeoDataFrame (map (simplify tolerance) (geometry shapes)) (crs shapes)).

Definition build_mask (shp : option string) (ds : DataArray) : M (option GeoDataFrame) :=
  match shp with
  | Some path =>
      tqdm_write ("Loading and simplifying shapefile..." +:+ NL) ;;;
      resolution <- spatial_resolution ds ;;
      loaded <- read_file path ;;
      shapefile <- to_crs loaded "EPSG:4326" ;;
      shapefile <- simplify_geometry shapefile resolution ;;
      ret (Some shapefile)
  | None => ret None
  end.

(** ** The output directory: line 57 *)

Definition EXPORT_DIR : string := "compressed".

(** The directories [os.makedirs(path)] walks through: every prefix of [path]
    that ends before a ["/"], then [path] itself. [seen] is the part of the
    path already read. *)
Fixpoint path_prefixes (seen rest : string) : list string :=
  match rest with
  | EmptyString => [seen]
  | String c rest' =>
      let seen' := seen +:+ String c EmptyString in
      if Ascii.eqb c "/"
      then (if String.eqb seen EmptyString then [] else [seen]) ++ path_prefixes seen' rest'
      else path_prefixes seen' rest'
  end.

(** Creating the directories [dirs], parents first, in the file system [f].
    A parent that exists as a directory is walked through. The last one is
    the target: if it exists, [exist_ok] decides, and only for a directory. *)
Fixpoint mkdirs (dirs : list string) (exist_ok : bool) (f : gmap string Node)
  : Exn + gmap string Node :=
  match dirs with
  | [] => inr f
  | [target] =>
      match f !! target with
      | None => inr (<[target := Dir]> f)
      | Some Dir => if exist_ok then inr f else inl FileExistsError
      | Some _ => inl FileExistsError
      end
  | parent :: rest =>
      match f !! parent with
      | None => mkdirs rest exist_ok (<[parent := Dir]> f)
      | Some Dir => mkdirs rest exist_ok f
      | Some _ => inl NotADirectoryError
      end
  end.

(** [os.makedirs(path, exist_ok=exist_ok)] *)
Definition makedirs (path : string) (exist_ok : bool) : M unit :=
  emit (MadeDirs path exist_ok) ;;;
  f <- get_fs ;;
  match mkdirs (path_prefixes EmptyString path) exist_ok f with
  | inl e => raise e
  | inr f' => put_fs f'
  end.

(** ** The exporter: lines 14-20 *)

Definition digit_char (d : nat) : ascii := ascii_of_nat (48 + d).

(** The decimal digits of [n] in front of [acc], most significant first. *)
Fixpoint decimal_digits (fuel n : nat) (acc : string) : string :=
  match fuel with
  | O => acc
  | S fuel' =>
      let acc' := String (digit_char (n mod 10)) acc in
      if Nat.ltb n 10 then acc' else decimal_digits fuel' (n / 10) acc'
  end.

Definition decimal (n : nat) : string := decimal_digits (S n) n EmptyString.

Fixpoint zeros (k : nat) : string :=
  match k with
  | O => EmptyString
  | S k' => String "0" (zeros k')
  end.

(** ["%0<width>d" % n] *)
Definition zfill (width n : nat) : string :=
  let s := decimal n in
  zeros (width - String.length s) +:+ s.

(** [t.strftime('%Y-%m-%d')] *)
Definition strftime_Ymd (t : Timestamp) : string :=
  zfill 4 (year t) +:+ "-" +:+ zfill 2 (month t) +:+ "-" +:+ zfill 2 (day t).

(** [ds.time.values[index]] *)
Definition time_at (ds : DataArray) (index : nat) : M Timestamp :=
  match da_time ds !! index with
  | Some t => ret t
  | None => raise IndexError
  end.

(** [ds.isel(time=index)] *)
Definition isel (ds : DataArray) (index : nat) : M Raster :=
  if Nat.ltb index (length (da_time ds))
  then ret (mkRaster (da_y ds) (da_x ds) (da_values ds index))
  else raise IndexError.

(** The f-string of line 15. *)
Definition export_path (band_name time_resolution : string) (t : Timestamp) : string :=
  EXPORT_DIR +:+ "/" +:+ band_name +:+ "/" +:+ time_resolution +:+ "__"
    +:+ strftime_Ymd t +:+ ".tif".

(** [.rio.to_raster(path)]: the file at [path] now holds the raster. *)
Definition to_raster (index : nat) (path : string) (clipped : bool) (r : Raster) : M unit :=
  emit (ToRaster index path clipped r) ;;;
  f <- get_fs ;;
  put_fs (<[path := GeoTIFF r]> f).

Definition _export_raster (index : nat) (band_name time_resolution : string)
  (shapefile : option GeoDataFrame) (ds : DataArray) : M unit :=
  t <- time_at ds index ;;
  let export_name := export_path band_name time_resolution t in
  match shapefile with
  | Some shapes =>
      slice <- isel ds index ;;
      to_raster index export_name true
        (rio_clip slice (map mapping (geometry shapes)) (crs shapes))
  | None =>
      slice <- isel ds index ;;
      to_raster index export_name false slice
  end.

(** ** The worker pool: lines 60-68 *)

(** [Pool(processes=num_workers)] refuses fewer than one process. *)
Definition Pool (num_workers : Z) : M unit :=
  if (num_workers <? 1)%Z then raise (OtherError "ValueError") else ret tt.

(** [list(pool.imap_unordered(task, range(n)))]: the tasks are independent
    and complete in the order the world's scheduler gives. *)
Definition imap_unordered (task : nat -> M unit) (n : nat) : M unit :=
  fun w => for_each (pool_order w n) task w.

(** ** The script *)

(** Lines 42-69: what [main] does with the band once it is selected. *)
Definition resample_and_export (band : DataArray) (band_name time_resolution : string)
  (shp : option string) (num_workers : Z) : M unit :=
  ds <- resample_then_mean time_resolution "time" None band ;;
  shapefile <- build_mask shp ds ;;
  makedirs (EXPORT_DIR +:+ "/" +:+ band_name) true ;;;
  let num_time := length (da_time ds) in
  Pool num_workers ;;;
  imap_unordered
    (fun index => _export_raster index band_name time_resolution shapefile ds)
    num_time ;;;
  tqdm_write (NL +:+ "Done" +:+ NL).

Definition main (netcdf_file time_resolution : string) (shp : option string)
  (band_name : string) (chunk_size num_workers : Z) : M unit :=
  tqdm_write NL ;;;
  found <- exists_ netcdf_file ;;
  DS <- (if negb found
         then tqdm_write ("The file " +:+ netcdf_file +:+ " does not exist") ;;;
              exit 1
         else open_rasterio netcdf_file chunk_size) ;;
  selected <- select_band DS band_name ;;
  resample_and_export (fst selected) (snd selected) time_resolution shp num_workers.

End Script.

(** ** A small concrete library and world, to run the script on *)

Module Demo.

Definition ts_eqb (a b : Timestamp) : bool :=
  Nat.eqb (year a) (year b) && Nat.eqb (month a) (month b) && Nat.eqb (day a) (day b)
  && Nat.eqb (hour a) (hour b) && Nat.eqb (minute a) (minute b)
  && Nat.eqb (second a) (second b).

(** The start of the bin of [t]: half days for ["12H"], days otherwise. *)
Definition floor_to (freq : string) (t : Timestamp) : Timestamp :=
  if String.eqb freq "12H"
  then mkTimestamp (year t) (month t) (day t) (hour t / 12 * 12) 0 0
  else mkTimestamp (year t) (month t) (day t) 0 0 0.

(** The labels of a time axis in time order, each once. *)
Fixpoint labels (freq : string) (times : list Timestamp) : list Timestamp :=
  match times with
  | [] => []
  | t :: rest =>
      let l := floor_to freq t in
      match labels freq rest with
      | l' :: more => if ts_eqb l l' then l' :: more else l :: l' :: more
      | [] => [l]
      end
  end.

Definition Point : Type := Q * Q.

Definition within (tolerance : Q) (p q : Point) : bool :=
  Qle_bool (Qabs (fst p - fst q)) tolerance && Qle_bool (Qabs (snd p - snd q)) tolerance.

(** Drop a vertex that lies within the tolerance of the vertex kept before it. *)
Fixpoint thin (tolerance : Q) (last : Point) (ring : list Point) : list Point :=
  match ring with
  | [] => []
  | p :: rest =>
      if within tolerance last p then thin tolerance last rest
      else p :: thin tolerance p rest
  end.

Definition in_box (ring : list Point) (px py : Q) : bool :=
  existsb (fun p => Qle_bool (fst p) px) ring && existsb (fun p => Qle_bool px (fst p)) ring
  && existsb (fun p => Qle_bool (snd p) py) ring && existsb (fun p => Qle_bool py (snd p)) ring.

#[local] Instance lib : GeoLib := {|
  Geometry := list Point;
  GeoJSON := list Point;
  resample_bins := labels;
  in_bin := fun freq label t => ts_eqb (floor_to freq t) label;
  reproject := fun from to g =>
    if String.eqb from to then g else map (fun p => (snd p, fst p)) g;
  simplify := fun tolerance g =>
    match g with [] => [] | p :: rest => p :: thin tolerance p rest end;
  mapping := fun g => g;
  rio_clip := fun r shapes _ =>
    mkRaster (r_y r) (r_x r)
      (fun iy ix =>
         match r_y r !! iy, r_x r !! ix with
         | Some py, Some px =>
             if existsb (fun g => in_box g px py) shapes then r_values r iy ix else None
         | _, _ => None
         end)
|}.

Definition at_ (d h : nat) : Timestamp := mkTimestamp 2021 3 d h 0 0.

(** Four steps on two days over a 2 x 3 grid; the cell value is the day plus
    the hour, and the second day left corner is missing at both steps. *)
Definition aod : DataArray :=
  mkDataArray [at_ 1 0; at_ 1 12; at_ 2 0; at_ 2 12]
              [50 # 1; 49 # 1]%Q
              [4 # 1; 9 # 2; 5 # 1]%Q
              (fun t iy ix =>
                 match t, iy, ix with
                 | 2, 0, 0 | 3, 0, 0 => None
                 | 0, _, _ => Some (1 # 1)
                 | 1, _, _ => Some (13 # 1)
                 | 2, _, _ => Some (2 # 1)
                 | _, _, _ => Some (14 # 1)
                 end%nat%Q).

Definition cube : Dataset :=
  mkDataset (fun name => if String.eqb name "aod" then inr aod else inl KeyError)
            ["aod"; "qa"].

(** A cube whose look-up of ["time.hour"] fails with something other than
    [KeyError]. *)
Definition moody : Dataset :=
  mkDataset (fun name =>
               if String.eqb name "aod" then inr aod
               else if String.eqb name "time.hour" then inl (OtherError "AttributeError")
               else inl KeyError)
            ["aod"].

Definition region : GeoDataFrame :=
  mkGeoDataFrame [[(49 # 1, 4 # 1); (49 # 1, 9 # 2); (50 # 1, 9 # 2); (50 # 1, 4 # 1)]%Q]
                 "EPSG:4258".

Definition disk : gmap string Node :=
  <["in.nc" := NetCDF cube]> (<["area.shp" := Shapefile region]> ∅).

Definition world (lines : list string) : World :=
  mkWorld disk lines (fun n => rev (seq 0 n)) [].

End Demo.

(** ** Vocabulary of the statements *)

Section Vocabulary.
Context `{lib : GeoLib}.

(** The name does not resolve: indexing the cube by it raises [KeyError]. *)
Definition misses (DS : Dataset) (name : string) : Prop :=
  ds_getitem DS name = inl KeyError.

(** What one failed look-up shows: the message, the variable names of the
    cube one per line, and the prompt. *)
Definition listing (DS : Dataset) : list Event :=
  Wrote "The band name does not exist. The following bands were found:"
  :: map (fun variable => Wrote (TAB +:+ variable)) (data_vars DS)
  ++ [Prompted "Band name: "].

Fixpoint listings (DS : Dataset) (k : nat) : list Event :=
  match k with
  | O => []
  | S k' => listing DS ++ listings DS k'
  end.

(** The world once standard input was read down to [rest] and [evs] logged. *)
Definition after_input (rest : list string) (evs : list Event) (w : World) : World :=
  mkWorld (fs w) rest (pool_order w) (trace w ++ evs).

Definition is_Opened (e : Event) : bool :=
  match e with Opened _ _ => true | _ => false end.

(** The mask [build_mask] makes of the shapes read from a file, given the
    tolerance: every geometry reprojected to EPSG:4326, then simplified. *)
Definition mask_of (shapes : GeoDataFrame) (tolerance : Q) : GeoDataFrame :=
  mkGeoDataFrame
    (map (fun g => simplify tolerance (reproject (crs shapes) "EPSG:4326" g))
         (geometry shapes))
    "EPSG:4326".

(** The calls of a successful [build_mask] on the shapefile at [path]. *)
Definition mask_calls (path : string) (tolerance : Q) : list Event :=
  [Wrote ("Loading and simplifying shapefile..." +:+ NL); ReadShapes path;
   Reprojected "EPSG:4326"; Simplified tolerance].

(** When and how the mask builder succeeds on a series [ds] in a file system
    [f]: without a path there is no mask and no call; with a path that holds
    a shapefile and a grid with two coordinates on each axis, the mask is
    [mask_of] the shapes read, at half the finer of the two first steps. *)
Inductive MaskFor (ds : DataArray) (f : gmap string Node)
  : option string -> option GeoDataFrame -> list Event -> Prop :=
| mask_none : MaskFor ds f None None []
| mask_some (path : string) (shapes : GeoDataFrame) (x0 x1 y0 y1 : Q) (xs ys : list Q) :
    da_x ds = x0 :: x1 :: xs ->
    da_y ds = y0 :: y1 :: ys ->
    f !! path = Some (Shapefile shapes) ->
    MaskFor ds f (Some path)
      (Some (mask_of shapes (Qmin (Qabs (x1 - x0)) (Qabs (y1 - y0)) / 2)%Q))
      (mask_calls path (Qmin (Qabs (x1 - x0)) (Qabs (y1 - y0)) / 2)%Q).

(** The time step [index] of a series. *)
Definition slice_of (ds : DataArray) (index : nat) : Raster :=
  mkRaster (da_y ds) (da_x ds) (da_values ds index).

(** What task [index] hands to [to_raster]. *)
Definition exported (shapefile : option GeoDataFrame) (ds : DataArray) (index : nat)
  : Raster :=
  match shapefile with
  | Some shapes => rio_clip (slice_of ds index) (map mapping (geometry shapes)) (crs shapes)
  | None => slice_of ds index
  end.

Definition masked (shapefile : option GeoDataFrame) : bool :=
  match shapefile with Some _ => true | None => false end.

(** The one [to_raster] call of the task at [index], whose time stamp is [t]. *)
Definition export_call (band_name time_resolution : string)
  (shapefile : option GeoDataFrame) (ds : DataArray) (index : nat) (t : Timestamp)
  : Event :=
  ToRaster index (export_path band_name time_resolution t) (masked shapefile)
           (exported shapefile ds index).

Definition write_file (path : string) (r : Raster) (w : World) : World :=
  mkWorld (<[path := GeoTIFF r]> (fs w)) (stdin w) (pool_order w) (trace w).

Definition set_fs (f : gmap string Node) (w : World) : World :=
  mkWorld f (stdin w) (pool_order w) (trace w).

(** The world after the task at [index] ran. *)
Definition after_export (band_name time_resolution : string)
  (shapefile : option GeoDataFrame) (ds : DataArray) (w : World) (index : nat) : World :=
  match da_time ds !! index with
  | Some t =>
      write_file (export_path band_name time_resolution t) (exported shapefile ds index)
        (log [export_call band_name time_resolution shapefile ds index t] w)
  | None => w
  end.

(** The [to_raster] calls of the tasks [order], in that order. *)
Definition export_calls (band_name time_resolution : string)
  (shapefile : option GeoDataFrame) (ds : DataArray) (order : list nat) : list Event :=
  omap (fun index =>
          export_call band_name time_resolution shapefile ds index <$> da_time ds !! index)
       order.

(** The file system after the tasks [order] wrote their files. *)
Definition export_files (band_name time_resolution : string)
  (shapefile : option GeoDataFrame) (ds : DataArray) (order : list nat)
  (f : gmap string Node) : gmap string Node :=
  foldl (fun f index =>
           match da_time ds !! index with
           | Some t => <[export_path band_name time_resolution t
                         := GeoTIFF (exported shapefile ds index)]> f
           | None => f
           end)
        f order.

Definition is_ToRaster (e : Event) : bool :=
  match e with ToRaster _ _ _ _ => true | _ => false end.

Definition is_GeoTIFF (n : Node) : bool :=
  match n with GeoTIFF _ => true | _ => false end.

(** The paths of the file system that hold a raster. *)
Definition raster_files (f : gmap string Node) : list string :=
  map fst (List.filter (fun entry => is_GeoTIFF (snd entry)) (map_to_list f)).

(** The index and path of every [to_raster] call of a log, in order. *)
Definition written_paths (evs : list Event) : list (nat * string) :=
  omap (fun e => match e with ToRaster index path _ _ => Some (index, path) | _ => None end)
       evs.

(** The calendar day of a time stamp: what [strftime('%Y-%m-%d')] keeps. *)
Definition date_of (t : Timestamp) : nat * nat * nat := (year t, month t, day t).

(** The scheduler completes exactly the tasks it was given, each once. *)
Definition fair (w : World) : Prop :=
  forall n, pool_order w n ≡ₚ seq 0 n.

(** Reading a date back from a file name: decimal digits up to the first
    character that is not one. *)
Definition is_digit (c : ascii) : bool :=
  Nat.leb 48 (nat_of_ascii c) && Nat.leb (nat_of_ascii c) 57.

Definition digit_val (c : ascii) : nat := nat_of_ascii c - 48.

Fixpoint read_number (s : string) (acc : nat) : nat * string :=
  match s with
  | String c s' =>
      if is_digit c then read_number s' (10 * acc + digit_val c) else (acc, s)
  | EmptyString => (acc, s)
  end.

Definition string_tail (s : string) : string :=
  match s with
  | String _ s' => s'
  | EmptyString => s
  end.

Definition parse_Ymd (s : string) : nat * nat * nat :=
  let (y, after_year) := read_number s 0 in
  let (m, after_month) := read_number (string_tail after_year) 0 in
  let (d, _) := read_number (string_tail after_month) 0 in
  (y, m, d).

(** The string is empty or starts with a character that is not a digit. *)
Definition stops_number (s : string) : Prop :=
  match s with
  | String c _ => is_digit c = false
  | EmptyString => True
  end.

(** The world a complete run of lines 42-69 leaves: [evs] are the calls of
    the mask builder, [f1] the file system once the directory is made. *)
Definition final_world (band : DataArray) (band_name time_resolution : string)
  (shapefile : option GeoDataFrame) (evs : list Event) (f1 : gmap string Node)
  (w : World) : World :=
  let ds := resample_mean time_resolution None band in
  log [Wrote (NL +:+ "Done" +:+ NL)]
    (foldl (after_export band_name time_resolution shapefile ds)
       (set_fs f1
          (log (Resampled time_resolution "time" None
                :: evs ++ [MadeDirs (EXPORT_DIR +:+ "/" +:+ band_name) true]) w))
       (pool_order w (length (da_time ds)))).

Definition is_Prompted (e : Event) : bool :=
  match e with Prompted _ => true | _ => false end.

Definition is_MadeDirs (e : Event) : bool :=
  match e with MadeDirs _ _ => true | _ => false end.

(** Whatever its outcome, [m] leaves the part [part] of the world as it was. *)
Definition keeps {A X} (part : World -> X) (m : M A) : Prop :=
  forall w, part (snd (m w)) = part w.

(** [w'] is [w] after some more calls, all of them allowed by [allowed]. *)
Definition adds (allowed : Event -> bool) (w w' : World) : Prop :=
  exists evs, trace w' = trace w ++ evs /\ forallb allowed evs = true.

(** Whatever its outcome, [m] only performs calls allowed by [allowed]. *)
Definition emits {A} (allowed : Event -> bool) (m : M A) : Prop :=
  forall w, adds allowed w (snd (m w)).

End Vocabulary.

(** * Properties *)

(** ** The log *)

Section LogFacts.
Context `{lib : GeoLib}.

Lemma log_nil (w : World) : log [] w = w.
Proof. destruct w; unfold log; simpl. by rewrite app_nil_r. Qed.

Lemma log_log (a b : list Event) (w : World) : log b (log a w) = log (a ++ b) w.
Proof. unfold log; simpl. by rewrite app_assoc. Qed.

Lemma fs_log (evs : list Event) (w : World) : fs (log evs w) = fs w.
Proof. reflexivity. Qed.

Lemma stdin_log (evs : list Event) (w : World) : stdin (log evs w) = stdin w.
Proof. reflexivity. Qed.

Lemma trace_log (evs : list Event) (w : World) : trace (log evs w) = trace w ++ evs.
Proof. reflexivity. Qed.

(** Writing a list of lines logs them in order. *)
Lemma for_each_write (f : string -> string) (l : list string) (w : World) :
  for_each l (fun v => tqdm_write (f v)) w = (Return tt, log (map (fun v => Wrote (f v)) l) w).
Proof.
  revert w; induction l as [|v l IH]; intros w; simpl.
  - by rewrite log_nil.
  - unfold bind, tqdm_write, emit. rewrite IH, log_log. reflexivity.
Qed.

End LogFacts.

(** ** Missing input file *)

(** C4. When nothing exists at the input path, [main] writes the blank line
    and the message naming the file, and leaves with exit status 1; the only
    change to the world is these two lines in the log: the file system (so no
    output directory), standard input and the rest of the log (so no cube
    opened, no resampling) are as before. *)
Theorem main_missing_input_exits_1 `{lib : GeoLib} (w : World)
  (netcdf_file time_resolution : string) (shp : option string) (band_name : string)
  (chunk_size num_workers : Z) :
  fs w !! netcdf_file = None ->
  main netcdf_file time_resolution shp band_name chunk_size num_workers w
  = (SysExit 1,
     log [Wrote NL; Wrote ("The file " +:+ netcdf_file +:+ " does not exist")] w).
Proof.
  intros Hmissing.
  unfold main, bind, tqdm_write, emit, exists_, get_fs, ret, exit; simpl.
  rewrite Hmissing; simpl. by rewrite log_log.
Qed.

Lemma main_missing_input_exits_1_witness :
  fs (Demo.world []) !! "absent.nc" = None
  /\ main "absent.nc" "1D" None "aod" 200 2 (Demo.world [])
     = (SysExit 1,
        log [Wrote NL; Wrote "The file absent.nc does not exist"] (Demo.world [])).
Proof.
  split; [reflexivity|].
  apply (main_missing_input_exits_1 (Demo.world []) "absent.nc"). reflexivity.
Defined.

(** ** The band selector *)

Section BandSelector.
Context `{lib : GeoLib}.
Variable DS : Dataset.

Lemma after_input_same (w : World) : after_input (stdin w) [] w = w.
Proof. destruct w; unfold after_input; simpl. by rewrite app_nil_r. Qed.

Lemma after_input_twice (r1 r2 : list string) (a b : list Event) (w : World) :
  after_input r2 b (after_input r1 a w) = after_input r2 (a ++ b) w.
Proof. unfold after_input; simpl. by rewrite app_assoc. Qed.

Lemma band_step_hit (name : string) (band : DataArray) (w : World) :
  ds_getitem DS name = inr band ->
  band_step DS name w = (Return (inl band), w).
Proof.
  intros H. unfold band_step, try_except, bind, getitem. by rewrite H.
Qed.

Lemma band_step_other (name : string) (e : Exn) (w : World) :
  ds_getitem DS name = inl e -> is_KeyError e = false ->
  band_step DS name w = (Raise e, w).
Proof.
  intros H He. unfold band_step, try_except, bind, getitem. rewrite H.
  unfold raise. by rewrite He.
Qed.

Lemma band_step_miss (name : string) (w : World) :
  misses DS name ->
  band_step DS name w =
  match stdin w with
  | [] => (Raise EOFError, log (listing DS) w)
  | line :: rest => (Return (inr line), after_input rest (listing DS) w)
  end.
Proof.
  intros H. unfold band_step, try_except, getitem. unfold bind at 1.
  rewrite H. unfold raise; simpl.
  unfold bind at 1. unfold tqdm_write at 1, emit at 1.
  unfold bind at 1. rewrite for_each_write.
  unfold bind at 1. unfold input, bind, emit; simpl.
  destruct (stdin w) as [|line rest]; simpl.
  - rewrite !log_log. reflexivity.
  - unfold after_input, listing; simpl. rewrite <- !app_assoc. reflexivity.
Qed.

(** Names that miss are skipped one by one, each showing the listing and
    reading the next line. *)
Lemma while_band_skip (tried : list string) :
  forall (fuel : nat) (name next : string) (rest : list string) (w : World),
    name :: stdin w = tried ++ next :: rest ->
    Forall (misses DS) tried ->
    length (stdin w) <= fuel ->
    while_band fuel DS name w =
    while_band (fuel - length tried) DS next
      (after_input rest (listings DS (length tried)) w).
Proof.
  induction tried as [|t tried IH]; intros fuel name next rest w Hnames Hmiss Hfuel.
  - simpl in Hnames. injection Hnames as -> Hrest. simpl.
    rewrite Nat.sub_0_r, <- Hrest, after_input_same. reflexivity.
  - simpl in Hnames. injection Hnames as -> Hrest.
    apply Forall_cons in Hmiss as [Ht Hmiss].
    destruct fuel as [|fuel].
    + rewrite Hrest in Hfuel. destruct tried; simpl in Hfuel; lia.
    + simpl. unfold bind at 1. rewrite (band_step_miss _ _ Ht).
      destruct (stdin w) as [|line lines] eqn:Hin.
      * destruct tried; discriminate.
      * rewrite (IH fuel line next rest (after_input lines (listing DS) w)).
        -- by rewrite after_input_twice.
        -- exact Hrest.
        -- exact Hmiss.
        -- simpl in *. lia.
Qed.

End BandSelector.

(** ** Which calls a computation can make *)

Section Emits.
Context `{lib : GeoLib}.
Variable allowed : Event -> bool.

Lemma adds_refl (w : World) : adds allowed w w.
Proof. exists []. split; [by rewrite app_nil_r | reflexivity]. Qed.

Lemma adds_trans (w1 w2 w3 : World) :
  adds allowed w1 w2 -> adds allowed w2 w3 -> adds allowed w1 w3.
Proof.
  intros [a [Ha Pa]] [b [Hb Pb]]. exists (a ++ b). split.
  - by rewrite Hb, Ha, app_assoc.
  - rewrite forallb_app, Pa, Pb. reflexivity.
Qed.

Lemma adds_log (evs : list Event) (w : World) :
  forallb allowed evs = true -> adds allowed w (log evs w).
Proof. intros H. exists evs. by split. Qed.

Lemma emits_ret {A} (a : A) : emits allowed (ret a).
Proof. intros w. apply adds_refl. Qed.

Lemma emits_raise {A} (e : Exn) : emits allowed (raise (A := A) e).
Proof. intros w. apply adds_refl. Qed.

Lemma emits_emit (e : Event) : allowed e = true -> emits allowed (emit e).
Proof. intros H w. apply adds_log. simpl. by rewrite H. Qed.

Lemma emits_get_fs : emits allowed get_fs.
Proof. intros w. apply adds_refl. Qed.

Lemma emits_put_fs (f : gmap string Node) : emits allowed (put_fs f).
Proof. intros w. exists []. split; [simpl; by rewrite app_nil_r | reflexivity]. Qed.

Lemma emits_bind {A B} (m : M A) (k : A -> M B) :
  emits allowed m -> (forall a, emits allowed (k a)) -> emits allowed (bind m k).
Proof.
  intros Hm Hk w. unfold bind. specialize (Hm w).
  destruct (m w) as [[a|e|c] w']; simpl in *; try exact Hm.
  eapply adds_trans; [exact Hm | apply Hk].
Qed.

Lemma emits_for_each {A} (l : list A) (body : A -> M unit) :
  (forall a, emits allowed (body a)) -> emits allowed (for_each l body).
Proof.
  intros Hbody. induction l as [|a l IH]; simpl.
  - apply emits_ret.
  - apply emits_bind; [apply Hbody | intros _; exact IH].
Qed.

Lemma emits_imap_unordered (task : nat -> M unit) (n : nat) :
  (forall i, emits allowed (task i)) -> emits allowed (imap_unordered task n).
Proof.
  intros Htask w. unfold imap_unordered. by apply emits_for_each.
Qed.

End Emits.

(** Decomposes a goal [emits allowed m] along the structure of [m]. *)
Ltac emits_step :=
  first
    [ apply emits_ret | apply emits_raise | apply emits_get_fs | apply emits_put_fs
    | apply emits_emit; reflexivity
    | apply emits_bind; [| intros ?]
    | apply emits_for_each; intros ?
    | apply emits_imap_unordered; intros ? ].

Section NoReload.
Context `{lib : GeoLib}.

Lemma resample_and_export_never_opens (band : DataArray)
  (band_name time_resolution : string) (shp : option string) (num_workers : Z) :
  emits (fun e => negb (is_Opened e))
        (resample_and_export band band_name time_resolution shp num_workers).
Proof.
  unfold resample_and_export, resample_then_mean, build_mask, makedirs, Pool.
  apply emits_bind; [repeat emits_step | intros ds].
  apply emits_bind.
  { destruct shp as [path|]; [|apply emits_ret].
    unfold tqdm_write, spatial_resolution, coord, read_file, to_crs, simplify_geometry.
    repeat (first [ emits_step | match goal with
                                 | |- emits _ (match ?x with _ => _ end) => destruct x
                                 end ]). }
  intros shapefile.
  unfold tqdm_write, _export_raster, time_at, isel, to_raster.
  repeat (first [ emits_step | match goal with
                               | |- emits _ (match ?x with _ => _ end) => destruct x
                               | |- emits _ (if ?x then _ else _) => destruct x
                               end ]).
Qed.

End NoReload.

Section BandSelectorRuns.
Context `{lib : GeoLib}.
Variable DS : Dataset.

Lemma listings_snoc (k : nat) : listings DS (S k) = listings DS k ++ listing DS.
Proof.
  induction k as [|k IH]; simpl in *.
  - by rewrite app_nil_r.
  - rewrite IH at 1. by rewrite app_assoc.
Qed.

Lemma select_band_resolves (band_name good : string) (tried rest : list string)
  (band : DataArray) (w : World) :
  band_name :: stdin w = tried ++ good :: rest ->
  Forall (misses DS) tried ->
  ds_getitem DS good = inr band ->
  select_band DS band_name w
  = (Return (band, good), after_input rest (listings DS (length tried)) w).
Proof.
  intros Hnames Hmiss Hgood. unfold select_band.
  rewrite (while_band_skip DS tried _ _ good rest w Hnames Hmiss (Nat.le_refl _)).
  destruct (_ - _); simpl; unfold bind; by rewrite (band_step_hit DS good band _ Hgood).
Qed.

Lemma select_band_propagates (band_name bad : string) (tried rest : list string)
  (e : Exn) (w : World) :
  band_name :: stdin w = tried ++ bad :: rest ->
  Forall (misses DS) tried ->
  ds_getitem DS bad = inl e -> is_KeyError e = false ->
  select_band DS band_name w
  = (Raise e, after_input rest (listings DS (length tried)) w).
Proof.
  intros Hnames Hmiss Hbad He. unfold select_band.
  rewrite (while_band_skip DS tried _ _ bad rest w Hnames Hmiss (Nat.le_refl _)).
  destruct (_ - _); simpl; unfold bind; by rewrite (band_step_other DS bad e _ Hbad He).
Qed.

Lemma select_band_end_of_input (band_name : string) (tried : list string) (w : World) :
  band_name :: stdin w = tried ->
  Forall (misses DS) tried ->
  select_band DS band_name w
  = (Raise EOFError, after_input [] (listings DS (length tried)) w).
Proof.
  intros Hnames Hmiss. unfold select_band.
  destruct (exists_last (l := tried)) as [front [last Hsplit]].
  { rewrite <- Hnames. discriminate. }
  rewrite Hsplit in Hnames, Hmiss |- *.
  apply Forall_app in Hmiss as [Hfront Hlast].
  apply Forall_cons in Hlast as [Hlast _].
  rewrite (while_band_skip DS front _ _ last [] w Hnames Hfront (Nat.le_refl _)).
  rewrite length_app; simpl. rewrite Nat.add_1_r, listings_snoc.
  destruct (_ - _); simpl; unfold bind; rewrite (band_step_miss DS last _ Hlast); simpl;
    unfold log, after_input; simpl; by rewrite app_assoc.
Qed.

End BandSelectorRuns.

Section Fuel.
Context `{lib : GeoLib}.
Variable DS : Dataset.

(** The fuel [select_band] gives the loop is enough: any larger amount gives
    the same run, so the loop never stops for lack of it. *)
Lemma while_band_enough_fuel (n : nat) :
  forall (fuel1 fuel2 : nat) (name : string) (w : World),
    length (stdin w) <= n -> n <= fuel1 -> n <= fuel2 ->
    while_band fuel1 DS name w = while_band fuel2 DS name w.
Proof.
  induction n as [|n IH]; intros fuel1 fuel2 name w Hlen H1 H2.
  - assert (Hin : stdin w = []) by (destruct (stdin w); [reflexivity | simpl in Hlen; lia]).
    destruct fuel1, fuel2; simpl; unfold bind;
      (destruct (ds_getitem DS name) as [e|band] eqn:Hget;
       [ destruct (is_KeyError e) eqn:He;
         [ destruct e; try discriminate; rewrite (band_step_miss DS name w Hget), Hin
         | rewrite (band_step_other DS name e w Hget He) ]
       | rewrite (band_step_hit DS name band w Hget) ]); reflexivity.
  - destruct fuel1 as [|fuel1]; [lia|]. destruct fuel2 as [|fuel2]; [lia|].
    simpl. unfold bind.
    destruct (ds_getitem DS name) as [e|band] eqn:Hget.
    + destruct (is_KeyError e) eqn:He.
      * destruct e; try discriminate. rewrite (band_step_miss DS name w Hget).
        destruct (stdin w) as [|line rest] eqn:Hin; [reflexivity|].
        apply IH; simpl in *; lia.
      * by rewrite (band_step_other DS name e w Hget He).
    + by rewrite (band_step_hit DS name band w Hget).
Qed.

Lemma select_band_any_fuel (fuel : nat) (name : string) (w : World) :
  length (stdin w) <= fuel ->
  while_band fuel DS name w = select_band DS name w.
Proof.
  intros H. unfold select_band.
  by apply (while_band_enough_fuel (length (stdin w))).
Qed.

End Fuel.

Section MainOpens.
Context `{lib : GeoLib}.

(** With a cube at the input path, [main] opens it once and hands it to the
    band selector. *)
Lemma main_opens (w : World) (netcdf_file time_resolution : string)
  (shp : option string) (band_name : string) (chunk_size num_workers : Z)
  (DS : Dataset) :
  fs w !! netcdf_file = Some (NetCDF DS) ->
  main netcdf_file time_resolution shp band_name chunk_size num_workers w
  = (selected <- select_band DS band_name ;;
     resample_and_export (fst selected) (snd selected) time_resolution shp num_workers)
      (log [Wrote NL; Opened netcdf_file chunk_size] w).
Proof.
  intros Hfile.
  unfold main, tqdm_write, exists_, open_rasterio.
  unfold bind at 1. unfold emit at 1.
  unfold bind at 1. unfold bind at 1. unfold get_fs at 1, ret at 1.
  rewrite fs_log, Hfile. simpl negb. cbv iota.
  unfold bind at 1. unfold bind at 1. unfold emit at 1.
  unfold bind at 1. unfold get_fs at 1. rewrite !fs_log, Hfile.
  unfold ret at 1. by rewrite log_log.
Qed.

End MainOpens.

(** C5. With a cube at the input path, let the names looked up be the band
    name given on the command line followed by the lines typed on standard
    input, and let [good] be the first of them that the cube resolves, all
    the names [tried] before it raising [KeyError]. Then the selector
    returns the band of [good]: for each name tried it has shown the
    message, every variable name of the cube and the prompt, and read one
    line. [main] goes on with that band and that name in the world the
    selector left, and from there on never opens the cube again. When the
    first name resolves, nothing is shown or read. *)
Theorem band_selector_recovers `{lib : GeoLib} (w : World)
  (netcdf_file time_resolution : string) (shp : option string) (band_name : string)
  (chunk_size num_workers : Z) (DS : Dataset) (tried : list string) (good : string)
  (rest : list string) (band : DataArray) :
  fs w !! netcdf_file = Some (NetCDF DS) ->
  band_name :: stdin w = tried ++ good :: rest ->
  Forall (misses DS) tried ->
  ds_getitem DS good = inr band ->
  select_band DS band_name (log [Wrote NL; Opened netcdf_file chunk_size] w)
  = (Return (band, good),
     after_input rest (listings DS (length tried))
       (log [Wrote NL; Opened netcdf_file chunk_size] w))
  /\ main netcdf_file time_resolution shp band_name chunk_size num_workers w
     = resample_and_export band good time_resolution shp num_workers
         (after_input rest (listings DS (length tried))
            (log [Wrote NL; Opened netcdf_file chunk_size] w))
  /\ adds (fun e => negb (is_Opened e))
       (after_input rest (listings DS (length tried))
          (log [Wrote NL; Opened netcdf_file chunk_size] w))
       (snd (main netcdf_file time_resolution shp band_name chunk_size num_workers w))
  /\ (tried = [] ->
      after_input rest (listings DS (length tried))
        (log [Wrote NL; Opened netcdf_file chunk_size] w)
      = log [Wrote NL; Opened netcdf_file chunk_size] w).
Proof.
  intros Hfile Hnames Hmiss Hgood.
  assert (Hsel := select_band_resolves DS band_name good tried rest band
                    (log [Wrote NL; Opened netcdf_file chunk_size] w) Hnames Hmiss Hgood).
  assert (Hmain : main netcdf_file time_resolution shp band_name chunk_size num_workers w
     = resample_and_export band good time_resolution shp num_workers
         (after_input rest (listings DS (length tried))
            (log [Wrote NL; Opened netcdf_file chunk_size] w))).
  { rewrite (main_opens w _ _ _ _ _ _ DS Hfile). unfold bind at 1. by rewrite Hsel. }
  split; [exact Hsel|]. split; [exact Hmain|]. split.
  - rewrite Hmain. apply resample_and_export_never_opens.
  - intros ->. simpl in Hnames. injection Hnames as _ Hrest.
    simpl. rewrite <- Hrest.
    exact (after_input_same (log [Wrote NL; Opened netcdf_file chunk_size] w)).
Qed.

Lemma band_selector_recovers_witness :
  fs (Demo.world ["o3"; "aod"]) !! "in.nc" = Some (NetCDF Demo.cube)
  /\ Forall (misses Demo.cube) ["no2"; "o3"]
  /\ select_band Demo.cube "no2" (log [Wrote NL; Opened "in.nc" 200] (Demo.world ["o3"; "aod"]))
     = (Return (Demo.aod, "aod"),
        after_input [] (listings Demo.cube 2)
          (log [Wrote NL; Opened "in.nc" 200] (Demo.world ["o3"; "aod"]))).
Proof.
  assert (Hmiss : Forall (misses Demo.cube) ["no2"; "o3"])
    by (repeat constructor).
  split; [reflexivity|]. split; [exact Hmiss|].
  exact (proj1 (band_selector_recovers (Demo.world ["o3"; "aod"]) "in.nc" "1D" None "no2"
                  200 2 Demo.cube ["no2"; "o3"] "aod" [] Demo.aod
                  eq_refl eq_refl Hmiss eq_refl)).
Defined.

(** C10. With a cube at the input path, let every name in [tried] raise
    [KeyError], and let the look-ups end either because standard input is at
    its end when the next name is asked for, or because the next name [bad]
    makes the cube raise an exception [e] other than [KeyError]. Then
    [main] raises [EOFError], respectively [e]: the loop has retried once per
    name in [tried] and caught nothing else, and the run stops there (the log
    ends with the listings; nothing is resampled, created or written). *)
Theorem band_selector_only_catches_KeyError `{lib : GeoLib} (w : World)
  (netcdf_file time_resolution : string) (shp : option string) (band_name : string)
  (chunk_size num_workers : Z) (DS : Dataset) (tried tail : list string) (e : Exn) :
  fs w !! netcdf_file = Some (NetCDF DS) ->
  band_name :: stdin w = tried ++ tail ->
  Forall (misses DS) tried ->
  (tail = [] /\ e = EOFError)
  \/ (exists bad, head tail = Some bad /\ ds_getitem DS bad = inl e
                  /\ is_KeyError e = false) ->
  select_band DS band_name (log [Wrote NL; Opened netcdf_file chunk_size] w)
  = (Raise e,
     after_input (List.tl tail) (listings DS (length tried))
       (log [Wrote NL; Opened netcdf_file chunk_size] w))
  /\ main netcdf_file time_resolution shp band_name chunk_size num_workers w
     = (Raise e,
        after_input (List.tl tail) (listings DS (length tried))
          (log [Wrote NL; Opened netcdf_file chunk_size] w)).
Proof.
  intros Hfile Hnames Hmiss Hend.
  assert (Hsel : select_band DS band_name (log [Wrote NL; Opened netcdf_file chunk_size] w)
    = (Raise e, after_input (List.tl tail) (listings DS (length tried))
                  (log [Wrote NL; Opened netcdf_file chunk_size] w))).
  { destruct Hend as [[-> ->] | [bad [Hbad [Hget He]]]].
    - rewrite app_nil_r in Hnames. simpl.
      by apply select_band_end_of_input.
    - destruct tail as [|bad' rest]; [discriminate|]. injection Hbad as ->.
      simpl. exact (select_band_propagates DS band_name _ tried rest e
               (log [Wrote NL; Opened netcdf_file chunk_size] w) Hnames Hmiss Hget He). }
  split; [exact Hsel|].
  rewrite (main_opens w _ _ _ _ _ _ DS Hfile). unfold bind at 1. by rewrite Hsel.
Qed.

Lemma band_selector_only_catches_KeyError_witness :
  fs (Demo.world ["o3"]) !! "in.nc" = Some (NetCDF Demo.cube)
  /\ Forall (misses Demo.cube) ["no2"; "o3"]
  /\ main "in.nc" "1D" None "no2" 200 2 (Demo.world ["o3"])
     = (Raise EOFError,
        after_input [] (listings Demo.cube 2)
          (log [Wrote NL; Opened "in.nc" 200] (Demo.world ["o3"]))).
Proof.
  assert (Hmiss : Forall (misses Demo.cube) ["no2"; "o3"])
    by (repeat constructor).
  split; [reflexivity|]. split; [exact Hmiss|].
  exact (proj2 (band_selector_only_catches_KeyError (Demo.world ["o3"]) "in.nc" "1D" None
                  "no2" 200 2 Demo.cube ["no2"; "o3"] [] EOFError
                  eq_refl eq_refl Hmiss (or_introl (conj eq_refl eq_refl)))).
Defined.

(** An exception other than [KeyError] leaves the loop at once: the demo
    cube raises on the second name, nothing is caught, the third is not read. *)
Example band_selector_lets_other_errors_through :
  main "in.nc" "1D" None "no2" 200 2 (mkWorld (<["in.nc" := NetCDF Demo.moody]> Demo.disk)
                                        ["time.hour"; "aod"] (fun n => seq 0 n) [])
  = (Raise (OtherError "AttributeError"),
     after_input ["aod"] (listings Demo.moody 1)
       (log [Wrote NL; Opened "in.nc" 200]
          (mkWorld (<["in.nc" := NetCDF Demo.moody]> Demo.disk)
             ["time.hour"; "aod"] (fun n => seq 0 n) []))).
Proof. reflexivity. Qed.

(** ** The mask builder *)

Section MaskBuilder.
Context `{lib : GeoLib}.

Lemma py_min_Qmin (a b : Q) : py_min a b = Qmin a b.
Proof.
  unfold py_min, Qmin, GenericMinMax.gmin, Qle_bool, Qcompare, Z.leb.
  by destruct (_ ?= _)%Z.
Qed.

(** Lines 48-49 need a second coordinate on each axis. *)
Lemma spatial_resolution_short (ds : DataArray) (w : World) :
  length (da_x ds) < 2 \/ length (da_y ds) < 2 ->
  spatial_resolution ds w = (Raise IndexError, w).
Proof.
  intros Hshort. unfold spatial_resolution, coord, bind.
  destruct (da_x ds) as [|x0 [|x1 xs]]; try reflexivity.
  destruct (da_y ds) as [|y0 [|y1 ys]]; try reflexivity.
  simpl in Hshort. lia.
Qed.

Lemma spatial_resolution_grid (ds : DataArray) (w : World)
  (x0 x1 y0 y1 : Q) (xs ys : list Q) :
  da_x ds = x0 :: x1 :: xs -> da_y ds = y0 :: y1 :: ys ->
  spatial_resolution ds w
  = (Return (Qmin (Qabs (x1 - x0)) (Qabs (y1 - y0)) / 2)%Q, w).
Proof.
  intros Hx Hy. unfold spatial_resolution, coord, bind. rewrite Hx, Hy. simpl.
  unfold ret. by rewrite py_min_Qmin.
Qed.

Lemma build_mask_short (path : string) (ds : DataArray) (w : World) :
  length (da_x ds) < 2 \/ length (da_y ds) < 2 ->
  build_mask (Some path) ds w
  = (Raise IndexError, log [Wrote ("Loading and simplifying shapefile..." +:+ NL)] w).
Proof.
  intros Hshort. unfold build_mask, tqdm_write. unfold bind at 1. unfold emit at 1.
  unfold bind at 1. by rewrite (spatial_resolution_short ds _ Hshort).
Qed.

Lemma build_mask_some (path : string) (ds : DataArray) (w : World)
  (shapes : GeoDataFrame) (tolerance : Q) :
  (forall w', spatial_resolution ds w' = (Return tolerance, w')) ->
  fs w !! path = Some (Shapefile shapes) ->
  build_mask (Some path) ds w
  = (Return (Some (mask_of shapes tolerance)), log (mask_calls path tolerance) w).
Proof.
  intros Hres Hfile. unfold build_mask, tqdm_write. unfold bind at 1. unfold emit at 1.
  unfold bind at 1. rewrite Hres.
  unfold read_file, to_crs, simplify_geometry, bind, emit, get_fs, ret; simpl.
  rewrite Hfile. unfold mask_of, mask_calls; simpl. rewrite map_map, !log_log. reflexivity.
Qed.

End MaskBuilder.

(** C9. When the band, and so the resampled series, has fewer than two
    coordinates on its x axis or on its y axis, the tolerance computation
    raises [IndexError], and a run with a shapefile stops there: after the
    resampling the log only holds the announcement, so no shapefile was read. *)
Theorem mask_needs_two_coordinates `{lib : GeoLib} (band : DataArray)
  (band_name time_resolution path : string) (num_workers : Z) (w : World) :
  length (da_x band) < 2 \/ length (da_y band) < 2 ->
  spatial_resolution (resample_mean time_resolution None band) w = (Raise IndexError, w)
  /\ resample_and_export band band_name time_resolution (Some path) num_workers w
     = (Raise IndexError,
        log [Resampled time_resolution "time" None;
             Wrote ("Loading and simplifying shapefile..." +:+ NL)] w).
Proof.
  intros Hshort. split.
  - by apply spatial_resolution_short.
  - unfold resample_and_export, resample_then_mean.
    unfold bind at 1. unfold bind at 1. unfold emit at 1. unfold ret at 1.
    unfold bind at 1. rewrite build_mask_short by exact Hshort.
    by rewrite log_log.
Qed.

Lemma mask_needs_two_coordinates_witness :
  resample_and_export
    (mkDataArray (da_time Demo.aod) (da_y Demo.aod) [4 # 1]%Q (da_values Demo.aod))
    "aod" "1D" (Some "area.shp") 2 (Demo.world [])
  = (Raise IndexError,
     log [Resampled "1D" "time" None;
          Wrote ("Loading and simplifying shapefile..." +:+ NL)] (Demo.world [])).
Proof.
  apply (mask_needs_two_coordinates
           (mkDataArray (da_time Demo.aod) (da_y Demo.aod) [4 # 1]%Q (da_values Demo.aod))).
  left. simpl. lia.
Defined.

(** C6. With a shapefile at [path] and a resampled series whose x axis
    starts [x0, x1] and whose y axis starts [y0, y1], the mask builder
    computes one tolerance, half of the smaller of [|x1 - x0|] and
    [|y1 - y0|], simplifies once with it, and the mask it returns holds, for
    every geometry read, that geometry reprojected and simplified with this
    same tolerance. *)
Theorem mask_tolerance_is_half_the_finer_step `{lib : GeoLib} (band : DataArray)
  (time_resolution path : string) (w : World) (shapes : GeoDataFrame)
  (x0 x1 y0 y1 : Q) (xs ys : list Q) :
  da_x band = x0 :: x1 :: xs ->
  da_y band = y0 :: y1 :: ys ->
  fs w !! path = Some (Shapefile shapes) ->
  exists (tolerance : Q) (mask : GeoDataFrame),
    tolerance = (Qmin (Qabs (x1 - x0)) (Qabs (y1 - y0)) / 2)%Q
    /\ (2 * tolerance <= Qabs (x1 - x0))%Q
    /\ (2 * tolerance <= Qabs (y1 - y0))%Q
    /\ ((2 * tolerance == Qabs (x1 - x0))%Q \/ (2 * tolerance == Qabs (y1 - y0))%Q)
    /\ build_mask (Some path) (resample_mean time_resolution None band) w
       = (Return (Some mask),
          log [Wrote ("Loading and simplifying shapefile..." +:+ NL); ReadShapes path;
               Reprojected "EPSG:4326"; Simplified tolerance] w)
    /\ Forall2 (fun g g' => g' = simplify tolerance (reproject (crs shapes) "EPSG:4326" g))
         (geometry shapes) (geometry mask).
Proof.
  intros Hx Hy Hfile.
  exists (Qmin (Qabs (x1 - x0)) (Qabs (y1 - y0)) / 2)%Q.
  exists (mask_of shapes (Qmin (Qabs (x1 - x0)) (Qabs (y1 - y0)) / 2)%Q).
  assert (Hdouble : forall q : Q, (2 * (q / 2) == q)%Q) by (intros q; field).
  split; [reflexivity|].
  split; [rewrite Hdouble; apply Q.le_min_l|].
  split; [rewrite Hdouble; apply Q.le_min_r|].
  split.
  - destruct (Q.min_dec (Qabs (x1 - x0)) (Qabs (y1 - y0))) as [Hm|Hm];
      [left|right]; rewrite Hdouble; rewrite Hm; reflexivity.
  - split.
    + apply build_mask_some; [|exact Hfile].
      intros w'. by apply (spatial_resolution_grid _ w' x0 x1 y0 y1 xs ys).
    + unfold mask_of; simpl. induction (geometry shapes); constructor; auto.
Qed.

Lemma mask_tolerance_is_half_the_finer_step_witness :
  fs (Demo.world []) !! "area.shp" = Some (Shapefile Demo.region)
  /\ exists (tolerance : Q) (mask : @GeoDataFrame Demo.lib),
       tolerance = (Qmin (Qabs ((9 # 2) - (4 # 1))) (Qabs ((49 # 1) - (50 # 1))) / 2)%Q
       /\ build_mask (Some "area.shp") (@resample_mean Demo.lib "1D" None Demo.aod)
            (Demo.world [])
          = (Return (Some mask),
             log [Wrote ("Loading and simplifying shapefile..." +:+ NL);
                  ReadShapes "area.shp"; Reprojected "EPSG:4326"; Simplified tolerance]
               (Demo.world [])).
Proof.
  split; [reflexivity|].
  destruct (mask_tolerance_is_half_the_finer_step Demo.aod "1D" "area.shp" (Demo.world [])
              Demo.region (4 # 1) (9 # 2) (50 # 1) (49 # 1) [5 # 1]%Q [] eq_refl eq_refl eq_refl)
    as [tolerance [mask [Htol [_ [_ [_ [Hrun _]]]]]]].
  exists tolerance, mask. split; [exact Htol | exact Hrun].
Defined.

(** ** The exporter and the pool *)

Section Exporter.
Context `{lib : GeoLib}.
Variables (band_name time_resolution : string).
Variable shapefile : option GeoDataFrame.
Variable ds : DataArray.

Lemma build_mask_for (shp : option string) (evs : list Event) (w : World) :
  MaskFor ds (fs w) shp shapefile evs ->
  build_mask shp ds w = (Return shapefile, log evs w).
Proof.
  intros [|path shapes x0 x1 y0 y1 xs ys Hx Hy Hfile].
  - simpl. unfold ret. by rewrite log_nil.
  - apply build_mask_some; [|exact Hfile].
    intros w'. by apply (spatial_resolution_grid _ w' x0 x1 y0 y1 xs ys).
Qed.

Lemma export_raster_run (index : nat) (w : World) :
  index < length (da_time ds) ->
  _export_raster index band_name time_resolution shapefile ds w
  = (Return tt, after_export band_name time_resolution shapefile ds w index).
Proof.
  intros Hlt. unfold _export_raster, after_export, time_at, isel.
  destruct (lookup_lt_is_Some_2 _ _ Hlt) as [t Ht]. rewrite Ht.
  apply Nat.ltb_lt in Hlt.
  unfold bind at 1. unfold ret at 1.
  destruct shapefile as [shapes|]; unfold bind at 1; rewrite Hlt; reflexivity.
Qed.

Lemma for_each_exports (order : list nat) :
  forall w : World,
    Forall (fun index => index < length (da_time ds)) order ->
    for_each order
      (fun index => _export_raster index band_name time_resolution shapefile ds) w
    = (Return tt,
       foldl (after_export band_name time_resolution shapefile ds) w order).
Proof.
  induction order as [|index order IH]; intros w Hvalid; [reflexivity|].
  apply Forall_cons in Hvalid as [Hindex Hvalid].
  simpl. unfold bind. rewrite (export_raster_run index w Hindex). by apply IH.
Qed.

Lemma trace_after_exports (order : list nat) :
  forall w : World,
    trace (foldl (after_export band_name time_resolution shapefile ds) w order)
    = trace w ++ export_calls band_name time_resolution shapefile ds order.
Proof.
  induction order as [|index order IH]; intros w; simpl.
  - by rewrite app_nil_r.
  - rewrite IH. unfold after_export, export_calls. simpl.
    destruct (da_time ds !! index) as [t|]; simpl; [|reflexivity].
    by rewrite <- app_assoc.
Qed.

Lemma fs_after_exports (order : list nat) :
  forall w : World,
    fs (foldl (after_export band_name time_resolution shapefile ds) w order)
    = export_files band_name time_resolution shapefile ds order (fs w).
Proof.
  induction order as [|index order IH]; intros w; simpl; [reflexivity|].
  rewrite IH. unfold after_export.
  by destruct (da_time ds !! index).
Qed.

Lemma stdin_after_exports (order : list nat) :
  forall w : World,
    stdin (foldl (after_export band_name time_resolution shapefile ds) w order) = stdin w.
Proof.
  induction order as [|index order IH]; intros w; simpl; [reflexivity|].
  rewrite IH. unfold after_export. by destruct (da_time ds !! index).
Qed.

(** One call per task: the calls are the tasks' indices with their stamps. *)
Lemma export_calls_indices (order : list nat) :
  Forall (fun index => index < length (da_time ds)) order ->
  Forall2 (fun index e =>
             exists t, da_time ds !! index = Some t
                       /\ e = export_call band_name time_resolution shapefile ds index t)
          order (export_calls band_name time_resolution shapefile ds order).
Proof.
  induction 1 as [|index order Hlt _ IH]; [constructor|].
  unfold export_calls; simpl.
  destruct (lookup_lt_is_Some_2 _ _ Hlt) as [t Ht]. rewrite Ht. simpl.
  constructor; [by exists t | exact IH].
Qed.

Lemma export_calls_length (order : list nat) :
  Forall (fun index => index < length (da_time ds)) order ->
  length (export_calls band_name time_resolution shapefile ds order) = length order.
Proof.
  intros H. symmetry. exact (Forall2_length _ _ _ (export_calls_indices order H)).
Qed.

Lemma export_calls_written (order : list nat) :
  Forall (fun index => index < length (da_time ds)) order ->
  map fst (written_paths (export_calls band_name time_resolution shapefile ds order))
  = order.
Proof.
  induction 1 as [|index order Hlt _ IH]; [reflexivity|].
  unfold export_calls, written_paths in *. cbn [omap list_omap].
  destruct (lookup_lt_is_Some_2 _ _ Hlt) as [t Ht]. rewrite Ht.
  cbn. f_equal. exact IH.
Qed.

Lemma export_calls_all_ToRaster (order : list nat) :
  forallb is_ToRaster (export_calls band_name time_resolution shapefile ds order) = true.
Proof.
  induction order as [|index order IH]; [reflexivity|].
  unfold export_calls; simpl. by destruct (da_time ds !! index).
Qed.

End Exporter.

Section Scheduler.
Context `{lib : GeoLib}.

Lemma fair_indices (w : World) (n : nat) :
  fair w -> Forall (fun index => index < n) (pool_order w n).
Proof.
  intros Hfair. rewrite (Hfair n). apply Forall_forall.
  intros index Hin. apply elem_of_seq in Hin. lia.
Qed.

Lemma fair_length (w : World) (n : nat) : fair w -> length (pool_order w n) = n.
Proof. intros Hfair. by rewrite (Hfair n), length_seq. Qed.

End Scheduler.

(** ** A complete run of lines 42-69 *)

Section CompleteRun.
Context `{lib : GeoLib}.

Lemma Pool_positive (num_workers : Z) (w : World) :
  (1 <= num_workers)%Z -> Pool num_workers w = (Return tt, w).
Proof.
  intros H. unfold Pool. destruct (Z.ltb_spec num_workers 1); [lia | reflexivity].
Qed.

Lemma resample_and_export_run (band : DataArray) (band_name time_resolution : string)
  (shp : option string) (num_workers : Z) (w : World)
  (shapefile : option GeoDataFrame) (evs : list Event) (f1 : gmap string Node) :
  MaskFor (resample_mean time_resolution None band) (fs w) shp shapefile evs ->
  mkdirs (path_prefixes EmptyString (EXPORT_DIR +:+ "/" +:+ band_name)) true (fs w) = inr f1 ->
  (1 <= num_workers)%Z ->
  fair w ->
  resample_and_export band band_name time_resolution shp num_workers w
  = (Return tt, final_world band band_name time_resolution shapefile evs f1 w).
Proof.
  intros Hmask Hdirs Hworkers Hfair.
  unfold resample_and_export, resample_then_mean, final_world.
  set (ds := resample_mean time_resolution None band) in *.
  unfold bind at 1. unfold bind at 1. unfold emit at 1. unfold ret at 1.
  unfold bind at 1.
  rewrite (build_mask_for shapefile ds shp evs (log [Resampled time_resolution "time" None] w))
    by exact Hmask.
  unfold makedirs.
  unfold bind at 1. unfold bind at 1. unfold emit at 1.
  unfold bind at 1. unfold get_fs at 1. rewrite !fs_log, Hdirs.
  unfold put_fs at 1.
  unfold bind at 1. rewrite (Pool_positive _ _ Hworkers).
  unfold bind at 1. unfold imap_unordered. cbn [pool_order log].
  rewrite for_each_exports by (apply fair_indices; exact Hfair).
  unfold tqdm_write, emit. rewrite !log_log. reflexivity.
Qed.

End CompleteRun.

Section FinalWorld.
Context `{lib : GeoLib}.
Variables (band : DataArray) (band_name time_resolution : string).
Variables (shapefile : option GeoDataFrame) (evs : list Event) (f1 : gmap string Node).
Variable w : World.

Lemma trace_final_world :
  trace (final_world band band_name time_resolution shapefile evs f1 w)
  = trace w
    ++ Resampled time_resolution "time" None :: evs
    ++ MadeDirs (EXPORT_DIR +:+ "/" +:+ band_name) true
       :: export_calls band_name time_resolution shapefile
            (resample_mean time_resolution None band)
            (pool_order w (length (da_time (resample_mean time_resolution None band))))
    ++ [Wrote (NL +:+ "Done" +:+ NL)].
Proof.
  unfold final_world. cbv zeta. rewrite trace_log, trace_after_exports.
  unfold set_fs; simpl. rewrite <- !app_assoc. simpl. rewrite <- !app_assoc. reflexivity.
Qed.

Lemma fs_final_world :
  fs (final_world band band_name time_resolution shapefile evs f1 w)
  = export_files band_name time_resolution shapefile
      (resample_mean time_resolution None band)
      (pool_order w (length (da_time (resample_mean time_resolution None band)))) f1.
Proof.
  unfold final_world. cbv zeta. rewrite fs_log, fs_after_exports. reflexivity.
Qed.

End FinalWorld.

(** ** What is exported *)

(** C7. In a run of lines 42-69 where the mask can be built, the directory
    made and the pool started, every task, in whatever order the tasks
    complete, makes one [to_raster] call for its index, at the path of its
    time stamp. Without a shapefile path there is no mask and the raster
    written is the time step itself. With a path, the file there holds
    shapes, the mask is these shapes reprojected to EPSG:4326 (and
    simplified), and the raster written is the time step clipped to the
    mask's geometries in EPSG:4326. *)
Theorem exports_follow_the_mask `{lib : GeoLib} (band : DataArray)
  (band_name time_resolution : string) (shp : option string) (num_workers : Z)
  (w : World) (shapefile : option GeoDataFrame) (evs : list Event)
  (f1 : gmap string Node) :
  MaskFor (resample_mean time_resolution None band) (fs w) shp shapefile evs ->
  mkdirs (path_prefixes EmptyString (EXPORT_DIR +:+ "/" +:+ band_name)) true (fs w) = inr f1 ->
  (1 <= num_workers)%Z ->
  fair w ->
  exists (wf : World) (calls : list Event),
    resample_and_export band band_name time_resolution shp num_workers w = (Return tt, wf)
    /\ trace wf
       = trace w ++ Resampled time_resolution "time" None :: evs
         ++ MadeDirs (EXPORT_DIR +:+ "/" +:+ band_name) true :: calls
         ++ [Wrote (NL +:+ "Done" +:+ NL)]
    /\ match shp with
       | None =>
           Forall2
             (fun index e =>
                exists t,
                  da_time (resample_mean time_resolution None band) !! index = Some t
                  /\ e = ToRaster index (export_path band_name time_resolution t) false
                           (slice_of (resample_mean time_resolution None band) index))
             (pool_order w (length (da_time (resample_mean time_resolution None band))))
             calls
       | Some path =>
           exists (shapes : GeoDataFrame) (tolerance : Q),
             fs w !! path = Some (Shapefile shapes)
             /\ Forall2
                  (fun index e =>
                     exists t,
                       da_time (resample_mean time_resolution None band) !! index = Some t
                       /\ e = ToRaster index (export_path band_name time_resolution t) true
                                (rio_clip
                                   (slice_of (resample_mean time_resolution None band) index)
                                   (map mapping
                                      (map (fun g => simplify tolerance
                                                       (reproject (crs shapes) "EPSG:4326" g))
                                           (geometry shapes)))
                                   "EPSG:4326"))
                  (pool_order w (length (da_time (resample_mean time_resolution None band))))
                  calls
       end.
Proof.
  intros Hmask Hdirs Hworkers Hfair.
  exists (final_world band band_name time_resolution shapefile evs f1 w).
  exists (export_calls band_name time_resolution shapefile
            (resample_mean time_resolution None band)
            (pool_order w (length (da_time (resample_mean time_resolution None band))))).
  split; [by apply resample_and_export_run with (evs := evs)|].
  split; [apply trace_final_world|].
  assert (Hcalls := export_calls_indices band_name time_resolution shapefile
                      (resample_mean time_resolution None band) _
                      (fair_indices w _ Hfair)).
  destruct Hmask as [|path shapes x0 x1 y0 y1 xs ys Hx Hy Hfile].
  - exact Hcalls.
  - exists shapes, (Qmin (Qabs (x1 - x0)) (Qabs (y1 - y0)) / 2)%Q.
    split; [exact Hfile | exact Hcalls].
Qed.

(** The demo world meets the conditions of a complete run. *)

Lemma demo_fair (lines : list string) : fair (Demo.world lines).
Proof. intros n. simpl. symmetry. apply Permutation_rev. Qed.

Lemma demo_dirs (lines : list string) :
  mkdirs (path_prefixes EmptyString (EXPORT_DIR +:+ "/" +:+ "aod")) true (fs (Demo.world lines))
  = inr (<["compressed/aod" := Dir]> (<["compressed" := Dir]> Demo.disk)).
Proof. reflexivity. Qed.

Lemma demo_mask (lines : list string) :
  MaskFor (@resample_mean Demo.lib "1D" None Demo.aod) (fs (Demo.world lines))
    (Some "area.shp")
    (Some (mask_of Demo.region
             (Qmin (Qabs ((9 # 2) - (4 # 1))) (Qabs ((49 # 1) - (50 # 1))) / 2)%Q))
    (mask_calls "area.shp"
       (Qmin (Qabs ((9 # 2) - (4 # 1))) (Qabs ((49 # 1) - (50 # 1))) / 2)%Q).
Proof.
  apply (mask_some _ _ "area.shp" Demo.region (4 # 1) (9 # 2) (50 # 1) (49 # 1)
           [5 # 1]%Q []); reflexivity.
Qed.

Lemma exports_follow_the_mask_witness :
  exists (wf : World) (calls : list Event),
    resample_and_export Demo.aod "aod" "1D" (Some "area.shp") 2 (Demo.world [])
    = (Return tt, wf)
    /\ length calls = 2
    /\ trace wf
       = Resampled "1D" "time" None
         :: mask_calls "area.shp"
              (Qmin (Qabs ((9 # 2) - (4 # 1))) (Qabs ((49 # 1) - (50 # 1))) / 2)%Q
         ++ MadeDirs "compressed/aod" true :: calls ++ [Wrote (NL +:+ "Done" +:+ NL)].
Proof.
  destruct (exports_follow_the_mask Demo.aod "aod" "1D" (Some "area.shp") 2 (Demo.world [])
              _ _ _ (demo_mask []) (demo_dirs []) ltac:(lia) (demo_fair []))
    as [wf [calls [Hrun [Htrace [shapes [tolerance [_ Hcalls]]]]]]].
  exists wf, calls. split; [exact Hrun|]. split; [|exact Htrace].
  symmetry. exact (Forall2_length _ _ _ Hcalls).
Defined.

(** ** The output directory *)

Section Directories.
Context `{lib : GeoLib}.

Lemma length_append (s1 s2 : string) :
  String.length (s1 +:+ s2) = String.length s1 + String.length s2.
Proof. induction s1 as [|c s1 IH]; simpl; [reflexivity | by rewrite IH]. Qed.

(** Every directory [makedirs] walks through is at most as long as the path. *)
Lemma path_prefixes_length (rest : string) :
  forall (seen p : string),
    p ∈ path_prefixes seen rest ->
    String.length p <= String.length seen + String.length rest.
Proof.
  induction rest as [|c rest IH]; intros seen p Hin; simpl in *.
  - apply list_elem_of_singleton in Hin as ->. lia.
  - assert (Hrec : p ∈ path_prefixes (seen +:+ String c EmptyString) rest ->
                   String.length p <= String.length seen + S (String.length rest)).
    { intros H. apply IH in H. rewrite length_append in H. simpl in H. lia. }
    destruct (Ascii.eqb c "/"); [|by apply Hrec].
    apply elem_of_app in Hin as [Hin|Hin]; [|by apply Hrec].
    destruct (String.eqb seen EmptyString); [by apply elem_of_nil in Hin|].
    apply list_elem_of_singleton in Hin as ->. lia.
Qed.

Lemma append_cons (c : ascii) (s t : string) : String c s +:+ t = String c (s +:+ t).
Proof. reflexivity. Qed.

Lemma append_empty_r (s : string) : s +:+ EmptyString = s.
Proof. induction s as [|c s IH]; [reflexivity | by rewrite append_cons, IH]. Qed.

Lemma append_assoc (s1 s2 s3 : string) : (s1 +:+ s2) +:+ s3 = s1 +:+ s2 +:+ s3.
Proof. induction s1 as [|c s1 IH]; [reflexivity | by rewrite !append_cons, IH]. Qed.

(** The path itself is among the directories [makedirs] walks through. *)
Lemma path_prefixes_target (rest : string) :
  forall seen : string, seen +:+ rest ∈ path_prefixes seen rest.
Proof.
  induction rest as [|c rest IH]; intros seen; simpl.
  - rewrite append_empty_r. apply list_elem_of_here.
  - replace (seen +:+ String c rest) with ((seen +:+ String c EmptyString) +:+ rest)
      by (by rewrite append_assoc).
    destruct (Ascii.eqb c "/"); [apply elem_of_app; right|]; apply IH.
Qed.

(** A file that a task writes is not one of the directories made. *)
Lemma export_path_not_a_directory (band_name time_resolution : string) (t : Timestamp) :
  export_path band_name time_resolution t
  ∉ path_prefixes EmptyString (EXPORT_DIR +:+ "/" +:+ band_name).
Proof.
  intros Hin. apply path_prefixes_length in Hin.
  unfold export_path in Hin. rewrite !length_append in Hin. simpl in Hin. lia.
Qed.

Lemma mkdirs_keeps_dirs (dirs : list string) (exist_ok : bool) :
  forall (f f' : gmap string Node) (p : string),
    mkdirs dirs exist_ok f = inr f' -> f !! p = Some Dir -> f' !! p = Some Dir.
Proof.
  induction dirs as [|d dirs IH]; intros f f' p Hrun Hp; simpl in Hrun.
  - by injection Hrun as <-.
  - destruct dirs as [|d' dirs].
    + destruct (f !! d) as [[]|] eqn:Hd; try discriminate.
      * destruct exist_ok; [|discriminate]. by injection Hrun as <-.
      * injection Hrun as <-. destruct (decide (d = p)) as [->|Hne].
        -- rewrite Hp in Hd. discriminate.
        -- by rewrite lookup_insert_ne.
    + destruct (f !! d) as [[]|] eqn:Hd; try discriminate.
      * by apply (IH f f' p).
      * apply (IH _ f' p Hrun). destruct (decide (d = p)) as [->|Hne].
        -- rewrite Hp in Hd. discriminate.
        -- by rewrite lookup_insert_ne.
Qed.

Lemma mkdirs_makes_dirs (dirs : list string) :
  forall (f f' : gmap string Node),
    mkdirs dirs true f = inr f' -> Forall (fun d => f' !! d = Some Dir) dirs.
Proof.
  induction dirs as [|d dirs IH]; intros f f' Hrun; [constructor|].
  simpl in Hrun. destruct dirs as [|d' dirs].
  - constructor; [|constructor].
    destruct (f !! d) as [[]|] eqn:Hd; try discriminate; injection Hrun as <-.
    + exact Hd.
    + apply lookup_insert_eq.
  - destruct (f !! d) as [[]|] eqn:Hd; try discriminate.
    + constructor; [|by apply (IH f)].
      by apply (mkdirs_keeps_dirs _ _ _ _ _ Hrun).
    + constructor; [|by apply (IH (<[d:=Dir]> f))].
      apply (mkdirs_keeps_dirs _ _ _ _ _ Hrun). apply lookup_insert_eq.
Qed.

(** With every directory in place, [makedirs(exist_ok=True)] changes nothing. *)
Lemma mkdirs_existing (dirs : list string) (f : gmap string Node) :
  Forall (fun d => f !! d = Some Dir) dirs -> mkdirs dirs true f = inr f.
Proof.
  induction 1 as [|d dirs Hd _ IH]; [reflexivity|].
  simpl. rewrite Hd. by destruct dirs.
Qed.

Lemma mkdirs_idempotent (dirs : list string) (f f' : gmap string Node) :
  mkdirs dirs true f = inr f' -> mkdirs dirs true f' = inr f'.
Proof. intros H. apply mkdirs_existing. by apply (mkdirs_makes_dirs dirs f). Qed.

Lemma export_files_other (band_name time_resolution : string)
  (shapefile : option GeoDataFrame) (ds : DataArray) (order : list nat) (p : string) :
  (forall t, export_path band_name time_resolution t <> p) ->
  forall f : gmap string Node,
    export_files band_name time_resolution shapefile ds order f !! p = f !! p.
Proof.
  intros Hother. unfold export_files.
  induction order as [|index order IH]; intros f; simpl; [reflexivity|].
  rewrite IH. destruct (da_time ds !! index) as [t|]; [|reflexivity].
  by rewrite lookup_insert_ne.
Qed.

Lemma MaskFor_no_ToRaster (ds : DataArray) (f : gmap string Node) (shp : option string)
  (shapefile : option GeoDataFrame) (evs : list Event) :
  MaskFor ds f shp shapefile evs -> forallb (fun e => negb (is_ToRaster e)) evs = true.
Proof. by intros []. Qed.

End Directories.

(** C8. In a complete run of lines 42-69 the directory is made before any
    task writes: no [to_raster] call precedes the [makedirs] call in the
    log. In the world the run leaves, the export directory is a directory,
    and making it again with [exist_ok=True], as a second run with the same
    arguments does, succeeds and changes nothing in the file system. The
    same holds right after the first creation. *)
Theorem output_directory_is_reused `{lib : GeoLib} (band : DataArray)
  (band_name time_resolution : string) (shp : option string) (num_workers : Z)
  (w : World) (shapefile : option GeoDataFrame) (evs : list Event)
  (f1 : gmap string Node) :
  MaskFor (resample_mean time_resolution None band) (fs w) shp shapefile evs ->
  mkdirs (path_prefixes EmptyString (EXPORT_DIR +:+ "/" +:+ band_name)) true (fs w) = inr f1 ->
  (1 <= num_workers)%Z ->
  fair w ->
  exists (wf : World) (before after : list Event),
    resample_and_export band band_name time_resolution shp num_workers w = (Return tt, wf)
    /\ trace wf
       = trace w ++ before
         ++ MadeDirs (EXPORT_DIR +:+ "/" +:+ band_name) true :: after
    /\ forallb (fun e => negb (is_ToRaster e)) before = true
    /\ mkdirs (path_prefixes EmptyString (EXPORT_DIR +:+ "/" +:+ band_name)) true f1 = inr f1
    /\ fs wf !! (EXPORT_DIR +:+ "/" +:+ band_name) = Some Dir
    /\ makedirs (EXPORT_DIR +:+ "/" +:+ band_name) true wf
       = (Return tt, log [MadeDirs (EXPORT_DIR +:+ "/" +:+ band_name) true] wf).
Proof.
  intros Hmask Hdirs Hworkers Hfair.
  set (ds := resample_mean time_resolution None band).
  set (dir := EXPORT_DIR +:+ "/" +:+ band_name) in *.
  exists (final_world band band_name time_resolution shapefile evs f1 w).
  exists (Resampled time_resolution "time" None :: evs).
  exists (export_calls band_name time_resolution shapefile ds
            (pool_order w (length (da_time ds))) ++ [Wrote (NL +:+ "Done" +:+ NL)]).
  assert (Hmade := mkdirs_makes_dirs _ _ _ Hdirs).
  assert (Hkept : Forall (fun d => fs (final_world band band_name time_resolution
                                         shapefile evs f1 w) !! d = Some Dir)
                         (path_prefixes EmptyString dir)).
  { rewrite fs_final_world. apply Forall_forall. intros d Hd.
    rewrite export_files_other.
    - by apply (proj1 (Forall_forall _ _) Hmade).
    - intros t <-. by apply (export_path_not_a_directory band_name time_resolution t). }
  assert (Hagain := mkdirs_existing _ _ Hkept).
  split; [by apply resample_and_export_run with (evs := evs)|].
  split; [rewrite trace_final_world; reflexivity|].
  split; [simpl; by apply (MaskFor_no_ToRaster _ _ _ _ _ Hmask)|].
  split; [by apply (mkdirs_idempotent _ (fs w))|].
  split.
  - apply (proj1 (Forall_forall _ _) Hkept). exact (path_prefixes_target dir EmptyString).
  - unfold makedirs, bind, emit, get_fs. rewrite fs_log, Hagain. reflexivity.
Qed.

Lemma output_directory_is_reused_witness :
  exists wf : World,
    resample_and_export Demo.aod "aod" "1D" (Some "area.shp") 2 (Demo.world [])
    = (Return tt, wf)
    /\ fs wf !! "compressed/aod" = Some Dir
    /\ makedirs "compressed/aod" true wf = (Return tt, log [MadeDirs "compressed/aod" true] wf).
Proof.
  destruct (output_directory_is_reused Demo.aod "aod" "1D" (Some "area.shp") 2
              (Demo.world []) _ _ _ (demo_mask []) (demo_dirs []) ltac:(lia) (demo_fair []))
    as [wf [before [after [Hrun [_ [_ [_ [Hdir Hagain]]]]]]]].
  exists wf. split; [exact Hrun|]. split; [exact Hdir | exact Hagain].
Defined.

(** ** The resampler *)

Section Resampler.
Context `{lib : GeoLib}.

Lemma lookup_numbered {A} (l : list A) :
  forall (start pos j : nat) (a : A),
    combine (seq start (length l)) l !! pos = Some (j, a)
    <-> j = start + pos /\ l !! pos = Some a.
Proof.
  induction l as [|x l IH]; intros start pos j a; simpl.
  - split; [discriminate | intros [_ H]; discriminate].
  - destruct pos as [|pos]; simpl.
    + split; [intros [= <- <-]; split; [lia | reflexivity]|].
      intros [-> [= <-]]. by rewrite Nat.add_0_r.
    + rewrite IH. split; intros [-> H]; (split; [lia | exact H]).
Qed.

Lemma steps_in_bin_spec (freq : string) (label : Timestamp) (times : list Timestamp)
  (i : nat) :
  i ∈ steps_in_bin freq label times
  <-> exists t, times !! i = Some t /\ in_bin freq label t = true.
Proof.
  unfold steps_in_bin. rewrite list_elem_of_fmap. split.
  - intros [[j t] [-> Hin]]. apply list_elem_of_In, filter_In in Hin as [Hin Hbin].
    simpl in *. exists t. split; [|exact Hbin].
    apply list_elem_of_In, list_elem_of_lookup in Hin as [pos Hpos].
    apply lookup_numbered in Hpos as [-> Ht]. exact Ht.
  - intros [t [Ht Hbin]]. exists (i, t). split; [reflexivity|].
    apply list_elem_of_In, filter_In. split; [|exact Hbin].
    apply list_elem_of_In, list_elem_of_lookup. exists i.
    apply lookup_numbered. by split.
Qed.

Lemma Qsum_app (a b : list Q) : (Qsum (a ++ b) == Qsum a + Qsum b)%Q.
Proof.
  induction a as [|q a IH]; simpl.
  - by rewrite Qplus_0_l.
  - unfold Qsum in *. simpl. rewrite IH. by rewrite Qplus_assoc.
Qed.

(** The mean with the default [skipna]: missing exactly when no cell holds a
    number, otherwise the sum of the numbers over their count. *)
Lemma mean_cells_default (cells : list (option Q)) :
  match mean_cells None cells with
  | None => present cells = []
  | Some m =>
      present cells <> []
      /\ (m * inject_Z (Z.of_nat (length (present cells))) == Qsum (present cells))%Q
  end.
Proof.
  unfold mean_cells, nanmean. destruct (present cells) as [|q qs] eqn:Hqs; [reflexivity|].
  split; [discriminate|]. field.
  intros H. unfold Qeq in H. simpl in H. lia.
Qed.

Lemma present_all_missing (cells : list (option Q)) :
  present cells = [] <-> Forall (fun c => c = None) cells.
Proof.
  unfold present. induction cells as [|[q|] cells IH]; simpl.
  - split; constructor.
  - split; [discriminate | intros H; apply Forall_cons in H as [? _]; discriminate].
  - rewrite IH. split; [by constructor | by intros H; apply Forall_cons in H as [_ ?]].
Qed.

End Resampler.

Section ResampleCall.
Context `{lib : GeoLib}.

(** Whatever happens later, lines 42-69 start with the one resampling call,
    along ["time"] and with [skipna] left at [None]. *)
Lemma resample_and_export_resamples_first (band : DataArray)
  (band_name time_resolution : string) (shp : option string) (num_workers : Z)
  (w : World) :
  exists evs,
    trace (snd (resample_and_export band band_name time_resolution shp num_workers w))
    = trace w ++ Resampled time_resolution "time" None :: evs.
Proof.
  unfold resample_and_export, resample_then_mean.
  unfold bind at 1. unfold bind at 1. unfold emit at 1. unfold ret at 1.
  match goal with
  | |- context [trace (snd (?rest (log ?e w)))] =>
      assert (Hrest : emits (fun _ => true) rest)
  end.
  { unfold build_mask, makedirs, Pool.
    apply emits_bind.
    { destruct shp as [path|]; [|apply emits_ret].
      unfold tqdm_write, spatial_resolution, coord, read_file, to_crs, simplify_geometry.
      repeat (first [ emits_step | match goal with
                                   | |- emits _ (match ?x with _ => _ end) => destruct x
                                   end ]). }
    intros shapefile.
    unfold tqdm_write, _export_raster, time_at, isel, to_raster.
    repeat (first [ emits_step | match goal with
                                 | |- emits _ (match ?x with _ => _ end) => destruct x
                                 | |- emits _ (if ?x then _ else _) => destruct x
                                 end ]). }
  destruct (Hrest (log [Resampled time_resolution "time" None] w)) as [evs [Hevs _]].
  exists evs. rewrite Hevs, trace_log, <- app_assoc. reflexivity.
Qed.

End ResampleCall.

(** C1. For a bin [label], the [k]-th the resampler makes of the band's time
    axis: the resampling never fails; the series it returns has the bins as
    its time axis and the band's own y and x axes; and its cell [(iy, ix)]
    at [k] is computed from the same cell of exactly the time steps whose
    stamp falls in the bin. It is missing when none of these holds a number
    (so an all-missing bin gives a missing value, not an error), and
    otherwise it is the sum of the numbers divided by their count. The call
    reduces along ["time"] with [skipna] left at [None], and it is the first
    thing lines 42-69 do. Here the arithmetic is exact and the reduction is
    the model of xarray's [resample(...).mean(...)]. *)
Theorem resampled_cell_is_the_bin_mean `{lib : GeoLib} (band : DataArray)
  (band_name time_resolution : string) (shp : option string) (num_workers : Z)
  (w : World) (k : nat) (label : Timestamp) (iy ix : nat) :
  resample_bins time_resolution (da_time band) !! k = Some label ->
  resample_then_mean time_resolution "time" None band w
  = (Return (resample_mean time_resolution None band),
     log [Resampled time_resolution "time" None] w)
  /\ (exists evs,
        trace (snd (resample_and_export band band_name time_resolution shp num_workers w))
        = trace w ++ Resampled time_resolution "time" None :: evs)
  /\ da_time (resample_mean time_resolution None band)
     = resample_bins time_resolution (da_time band)
  /\ da_y (resample_mean time_resolution None band) = da_y band
  /\ da_x (resample_mean time_resolution None band) = da_x band
  /\ (forall i, i ∈ steps_in_bin time_resolution label (da_time band)
                <-> exists t, da_time band !! i = Some t
                              /\ in_bin time_resolution label t = true)
  /\ match da_values (resample_mean time_resolution None band) k iy ix with
     | None =>
         Forall (fun i => da_values band i iy ix = None)
                (steps_in_bin time_resolution label (da_time band))
     | Some m =>
         exists numbers : list Q,
           numbers = present (map (fun i => da_values band i iy ix)
                                  (steps_in_bin time_resolution label (da_time band)))
           /\ numbers <> []
           /\ (m * inject_Z (Z.of_nat (length numbers)) == Qsum numbers)%Q
     end.
Proof.
  intros Hbin.
  split; [reflexivity|].
  split; [apply resample_and_export_resamples_first|].
  split; [reflexivity|]. split; [reflexivity|]. split; [reflexivity|].
  split; [intros i; apply steps_in_bin_spec|].
  unfold resample_mean. cbn [da_values]. rewrite Hbin.
  set (cells := map (fun i => da_values band i iy ix)
                    (steps_in_bin time_resolution label (da_time band))).
  assert (Hmean := mean_cells_default cells).
  destruct (mean_cells None cells) as [m|].
  - exists (present cells). destruct Hmean as [Hne Hsum]. by repeat split.
  - apply present_all_missing in Hmean. unfold cells in Hmean.
    by apply Forall_fmap in Hmean.
Qed.

Lemma resampled_cell_is_the_bin_mean_witness :
  @resample_bins Demo.lib "1D" (da_time Demo.aod) !! 1 = Some (Demo.at_ 2 0)
  /\ da_values (@resample_mean Demo.lib "1D" None Demo.aod) 1 0 0 = None
  /\ da_values (@resample_mean Demo.lib "1D" None Demo.aod) 1 0 1 = Some (16 # 2)%Q
  /\ exists numbers : list Q,
       numbers = [2 # 1; 14 # 1]%Q
       /\ numbers <> []
       /\ ((16 # 2) * inject_Z (Z.of_nat (length numbers)) == Qsum numbers)%Q.
Proof.
  split; [reflexivity|]. split; [reflexivity|]. split; [reflexivity|].
  exact (proj2 (proj2 (proj2 (proj2 (proj2 (proj2
    (resampled_cell_is_the_bin_mean Demo.aod "aod" "1D" None 2 (Demo.world []) 1
       (Demo.at_ 2 0) 0 1 eq_refl))))))).
Defined.

(** ** File names *)

Section FileNames.
Context `{lib : GeoLib}.

Lemma digit_char_is_digit (d : nat) :
  d < 10 -> is_digit (digit_char d) = true /\ digit_val (digit_char d) = d.
Proof.
  intros Hd. do 10 (destruct d as [|d]; [split; reflexivity|]). lia.
Qed.

Lemma decimal_digits_append (fuel : nat) :
  forall (n : nat) (acc rest : string),
    decimal_digits fuel n acc +:+ rest = decimal_digits fuel n (acc +:+ rest).
Proof.
  induction fuel as [|fuel IH]; intros n acc rest; simpl; [reflexivity|].
  destruct (Nat.ltb n 10); [reflexivity|]. by rewrite IH.
Qed.

(** Reading the digits of [n] adds them to the number read so far. *)
Lemma read_decimal_digits (fuel : nat) :
  forall n : nat,
    n < 10 ^ fuel ->
    exists k, forall (acc : string) (a : nat),
      read_number (decimal_digits fuel n acc) a = read_number acc (a * 10 ^ k + n).
Proof.
  induction fuel as [|fuel IH]; intros n Hn.
  - rewrite Nat.pow_0_r in Hn. assert (n = 0) as -> by lia. exists 0. intros acc a.
    cbn [decimal_digits]. f_equal. rewrite Nat.pow_0_r. lia.
  - assert (Hlast := digit_char_is_digit (n mod 10) ltac:(apply Nat.mod_upper_bound; lia)).
    destruct Hlast as [Hdigit Hval].
    cbn [decimal_digits]. cbv zeta. destruct (Nat.ltb_spec n 10) as [Hsmall|Hbig].
    + exists 1. intros acc a. cbn [read_number].
      rewrite Hdigit, Hval, (Nat.mod_small n 10 Hsmall). f_equal.
      rewrite Nat.pow_1_r. lia.
    + rewrite Nat.pow_succ_r' in Hn. destruct (IH (n / 10)) as [k Hk].
      { apply Nat.Div0.div_lt_upper_bound. lia. }
      exists (S k). intros acc a. rewrite Hk. cbn [read_number].
      rewrite Hdigit, Hval. f_equal.
      assert (Hdiv := Nat.div_mod_eq n 10). rewrite Nat.pow_succ_r'.
      generalize dependent (10 ^ k). generalize dependent (n / 10).
      generalize dependent (n mod 10). intros. nia.
Qed.

Lemma read_zeros (k : nat) (s : string) :
  read_number (zeros k +:+ s) 0 = read_number s 0.
Proof. induction k as [|k IH]; [reflexivity|]. simpl zeros. rewrite append_cons. exact IH. Qed.

Lemma read_number_stops (s : string) (a : nat) :
  stops_number s -> read_number s a = (a, s).
Proof. destruct s as [|c s]; simpl; [reflexivity|]. by intros ->. Qed.

(** A zero-filled number in front of a separator reads back as the number. *)
Lemma read_zfill (width n : nat) (rest : string) :
  stops_number rest -> read_number (zfill width n +:+ rest) 0 = (n, rest).
Proof.
  intros Hrest. unfold zfill, decimal.
  rewrite append_assoc, read_zeros, decimal_digits_append.
  destruct (read_decimal_digits (S n) n) as [k Hk].
  { apply Nat.lt_le_trans with (S n); [lia|]. apply Nat.lt_le_incl.
    apply Nat.pow_gt_lin_r. lia. }
  rewrite Hk. simpl. by apply read_number_stops.
Qed.

Lemma parse_strftime_Ymd (t : Timestamp) (rest : string) :
  stops_number rest -> parse_Ymd (strftime_Ymd t +:+ rest) = date_of t.
Proof.
  intros Hrest. unfold parse_Ymd, strftime_Ymd.
  rewrite !append_assoc.
  rewrite read_zfill by reflexivity. cbn [string_tail].
  rewrite append_cons. cbn [string_tail].
  change (EmptyString +:+ ?s) with s.
  rewrite read_zfill by reflexivity.
  rewrite append_cons. cbn [string_tail].
  change (EmptyString +:+ ?s) with s.
  rewrite read_zfill by exact Hrest. reflexivity.
Qed.

Lemma append_inv_head (s a b : string) : s +:+ a = s +:+ b -> a = b.
Proof.
  induction s as [|c s IH]; [trivial|]. rewrite !append_cons. intros [= H]. by apply IH.
Qed.

(** Two stamps get the same file name exactly when they fall on the same
    calendar day. *)
Lemma export_path_same_iff_same_day (band_name time_resolution : string)
  (t1 t2 : Timestamp) :
  export_path band_name time_resolution t1 = export_path band_name time_resolution t2
  <-> date_of t1 = date_of t2.
Proof.
  split.
  - unfold export_path. intros H.
    do 6 apply append_inv_head in H.
    apply (f_equal parse_Ymd) in H.
    by rewrite !parse_strftime_Ymd in H by reflexivity.
  - unfold export_path, strftime_Ymd, date_of. intros [= -> -> ->]. reflexivity.
Qed.

End FileNames.

(** ** How many tasks, how many files *)

(** X2. In a complete run of lines 42-69 the pool runs one task per bin of the
    resampled series: the [to_raster] calls are as many as the time axis is
    long, and their indices are the indices of the time axis, each once. *)
Lemma one_task_per_bin `{lib : GeoLib} (band : DataArray)
  (band_name time_resolution : string) (shp : option string) (num_workers : Z)
  (w : World) (shapefile : option GeoDataFrame) (evs : list Event)
  (f1 : gmap string Node) :
  MaskFor (resample_mean time_resolution None band) (fs w) shp shapefile evs ->
  mkdirs (path_prefixes EmptyString (EXPORT_DIR +:+ "/" +:+ band_name)) true (fs w) = inr f1 ->
  (1 <= num_workers)%Z ->
  fair w ->
  exists (wf : World) (calls : list Event),
    resample_and_export band band_name time_resolution shp num_workers w = (Return tt, wf)
    /\ trace wf
       = trace w ++ Resampled time_resolution "time" None :: evs
         ++ MadeDirs (EXPORT_DIR +:+ "/" +:+ band_name) true :: calls
         ++ [Wrote (NL +:+ "Done" +:+ NL)]
    /\ forallb is_ToRaster calls = true
    /\ length calls = length (da_time (resample_mean time_resolution None band))
    /\ map fst (written_paths calls)
       ≡ₚ seq 0 (length (da_time (resample_mean time_resolution None band))).
Proof.
  intros Hmask Hdirs Hworkers Hfair.
  set (ds := resample_mean time_resolution None band).
  exists (final_world band band_name time_resolution shapefile evs f1 w).
  exists (export_calls band_name time_resolution shapefile ds
            (pool_order w (length (da_time ds)))).
  assert (Hvalid := fair_indices w (length (da_time ds)) Hfair).
  split; [by apply resample_and_export_run with (evs := evs)|].
  split; [apply trace_final_world|].
  split; [apply export_calls_all_ToRaster|].
  split; [rewrite export_calls_length by exact Hvalid; by apply fair_length|].
  rewrite export_calls_written by exact Hvalid. apply Hfair.
Qed.

(** Two bins on different calendar days never share a file name. *)
Lemma distinct_days_distinct_paths `{lib : GeoLib} (band_name time_resolution : string)
  (t1 t2 : Timestamp) :
  date_of t1 <> date_of t2 ->
  export_path band_name time_resolution t1 <> export_path band_name time_resolution t2.
Proof. intros Hdays Hpaths. by apply export_path_same_iff_same_day in Hpaths. Qed.

(** C3. At half-day bins two tasks share a path. Resampling the demo band at ["12H"] gives four bins,
    two on each day. The tasks 0 and 1 are for different time stamps and get
    the same path, and so do the tasks 2 and 3: the file name keeps the day
    of the stamp and drops its hour. *)
Theorem half_day_bins_share_a_file_name :
  da_time (@resample_mean Demo.lib "12H" None Demo.aod)
  = [Demo.at_ 1 0; Demo.at_ 1 12; Demo.at_ 2 0; Demo.at_ 2 12]
  /\ Demo.at_ 1 0 <> Demo.at_ 1 12
  /\ export_path "aod" "12H" (Demo.at_ 1 0) = "compressed/aod/12H__2021-03-01.tif"
  /\ export_path "aod" "12H" (Demo.at_ 1 12) = "compressed/aod/12H__2021-03-01.tif"
  /\ written_paths (trace (snd (main "in.nc" "12H" None "aod" 200 2 (Demo.world []))))
     = [(3, "compressed/aod/12H__2021-03-02.tif");
        (2, "compressed/aod/12H__2021-03-02.tif");
        (1, "compressed/aod/12H__2021-03-01.tif");
        (0, "compressed/aod/12H__2021-03-01.tif")].
Proof.
  split; [reflexivity|]. split; [discriminate|].
  split; [reflexivity|]. split; [reflexivity|]. reflexivity.
Qed.

(** C2. At half-day bins there are fewer files than bins. The same run ends normally, the resampled series has
    four bins and four tasks each made their [to_raster] call, but only two
    raster files exist afterwards. *)
Theorem half_day_run_leaves_fewer_files :
  fst (main "in.nc" "12H" None "aod" 200 2 (Demo.world [])) = Return tt
  /\ length (da_time (@resample_mean Demo.lib "12H" None Demo.aod)) = 4
  /\ length (written_paths
               (trace (snd (main "in.nc" "12H" None "aod" 200 2 (Demo.world []))))) = 4
  /\ raster_files (fs (snd (main "in.nc" "12H" None "aod" 200 2 (Demo.world []))))
     = ["compressed/aod/12H__2021-03-01.tif"; "compressed/aod/12H__2021-03-02.tif"].
Proof.
  split; [reflexivity|]. split; [reflexivity|]. split; [reflexivity|].
  vm_compute. reflexivity.
Qed.

(** * Further properties of the script *)

Section WholeRun.
Context `{lib : GeoLib}.

Lemma fair_log_input (rest : list string) (evs : list Event) (w : World) :
  fair w -> fair (after_input rest evs w).
Proof. intros H n. exact (H n). Qed.

(** The directories made are still directories once the tasks have written. *)
Lemma dirs_survive_exports (band_name time_resolution : string)
  (shapefile : option GeoDataFrame) (ds : DataArray) (order : list nat)
  (f f1 : gmap string Node) :
  mkdirs (path_prefixes EmptyString (EXPORT_DIR +:+ "/" +:+ band_name)) true f = inr f1 ->
  Forall (fun d => export_files band_name time_resolution shapefile ds order f1 !! d
                   = Some Dir)
         (path_prefixes EmptyString (EXPORT_DIR +:+ "/" +:+ band_name)).
Proof.
  intros Hdirs. assert (Hmade := mkdirs_makes_dirs _ _ _ Hdirs).
  apply Forall_forall. intros d Hd. rewrite export_files_other.
  - by apply (proj1 (Forall_forall _ _) Hmade).
  - intros t <-. by apply (export_path_not_a_directory band_name time_resolution t).
Qed.

(** [main] from the open cube to the end, when every stage succeeds. *)
Lemma main_complete_run (w : World) (netcdf_file time_resolution : string)
  (shp : option string) (band_name : string) (chunk_size num_workers : Z)
  (DS : Dataset) (tried : list string) (good : string) (rest : list string)
  (band : DataArray) (shapefile : option GeoDataFrame) (evs : list Event)
  (f1 : gmap string Node) :
  fs w !! netcdf_file = Some (NetCDF DS) ->
  band_name :: stdin w = tried ++ good :: rest ->
  Forall (misses DS) tried ->
  ds_getitem DS good = inr band ->
  MaskFor (resample_mean time_resolution None band) (fs w) shp shapefile evs ->
  mkdirs (path_prefixes EmptyString (EXPORT_DIR +:+ "/" +:+ good)) true (fs w) = inr f1 ->
  (1 <= num_workers)%Z ->
  fair w ->
  main netcdf_file time_resolution shp band_name chunk_size num_workers w
  = (Return tt,
     final_world band good time_resolution shapefile evs f1
       (after_input rest (listings DS (length tried))
          (log [Wrote NL; Opened netcdf_file chunk_size] w))).
Proof.
  intros Hfile Hnames Hmiss Hgood Hmask Hdirs Hworkers Hfair.
  rewrite (main_opens w _ _ _ _ _ _ DS Hfile). unfold bind at 1.
  rewrite (select_band_resolves DS band_name good tried rest band
             (log [Wrote NL; Opened netcdf_file chunk_size] w) Hnames Hmiss Hgood).
  cbn [fst snd].
  by apply resample_and_export_run.
Qed.

End WholeRun.

(** X1. A whole run that recovers from wrong band names. With a cube at the
    input path, names that miss until [good] resolves, a mask that can be
    built, a directory that can be made for [good], at least one worker and
    a scheduler that completes every task, [main] ends normally. Its log is,
    in order: the blank line, the one opening of the cube, one listing per
    name that missed, the resampling, the calls of the mask builder, the
    [makedirs], one [to_raster] per task and the closing line. The
    directory and every file are named after the name that resolved, not
    after the one given on the command line; the lines typed after it stay
    unread; the directory exists at the end. *)
Theorem main_names_outputs_after_the_resolved_band `{lib : GeoLib} (w : World)
  (netcdf_file time_resolution : string) (shp : option string) (band_name : string)
  (chunk_size num_workers : Z) (DS : Dataset) (tried : list string) (good : string)
  (rest : list string) (band : DataArray) (shapefile : option GeoDataFrame)
  (evs : list Event) (f1 : gmap string Node) :
  fs w !! netcdf_file = Some (NetCDF DS) ->
  band_name :: stdin w = tried ++ good :: rest ->
  Forall (misses DS) tried ->
  ds_getitem DS good = inr band ->
  MaskFor (resample_mean time_resolution None band) (fs w) shp shapefile evs ->
  mkdirs (path_prefixes EmptyString (EXPORT_DIR +:+ "/" +:+ good)) true (fs w) = inr f1 ->
  (1 <= num_workers)%Z ->
  fair w ->
  exists (wf : World) (calls : list Event),
    main netcdf_file time_resolution shp band_name chunk_size num_workers w
    = (Return tt, wf)
    /\ trace wf
       = trace w ++ Wrote NL :: Opened netcdf_file chunk_size
         :: listings DS (length tried)
         ++ Resampled time_resolution "time" None :: evs
         ++ MadeDirs (EXPORT_DIR +:+ "/" +:+ good) true :: calls
         ++ [Wrote (NL +:+ "Done" +:+ NL)]
    /\ Forall2
         (fun index e =>
            exists t,
              da_time (resample_mean time_resolution None band) !! index = Some t
              /\ e = ToRaster index (export_path good time_resolution t)
                       (masked shapefile)
                       (exported shapefile (resample_mean time_resolution None band) index))
         (pool_order w (length (da_time (resample_mean time_resolution None band))))
         calls
    /\ stdin wf = rest
    /\ fs wf !! (EXPORT_DIR +:+ "/" +:+ good) = Some Dir.
Proof.
  intros Hfile Hnames Hmiss Hgood Hmask Hdirs Hworkers Hfair.
  set (ds := resample_mean time_resolution None band).
  set (w2 := after_input rest (listings DS (length tried))
               (log [Wrote NL; Opened netcdf_file chunk_size] w)).
  exists (final_world band good time_resolution shapefile evs f1 w2).
  exists (export_calls good time_resolution shapefile ds
            (pool_order w (length (da_time ds)))).
  split; [by apply main_complete_run|].
  split.
  { rewrite trace_final_world. unfold w2, after_input, log; simpl.
    rewrite <- !app_assoc. reflexivity. }
  split.
  { apply export_calls_indices. by apply fair_indices. }
  split.
  { unfold final_world. cbv zeta. rewrite stdin_log, stdin_after_exports. reflexivity. }
  rewrite fs_final_world.
  apply (proj1 (Forall_forall _ _)
           (dirs_survive_exports good time_resolution shapefile ds _ (fs w) f1 Hdirs)).
  exact (path_prefixes_target _ EmptyString).
Qed.

Lemma main_names_outputs_after_the_resolved_band_witness :
  exists (wf : World) (calls : list Event),
    main "in.nc" "1D" (Some "area.shp") "no2" 200 2 (Demo.world ["o3"; "aod"; "unread"])
    = (Return tt, wf)
    /\ length calls = 2
    /\ stdin wf = ["unread"]
    /\ fs wf !! "compressed/aod" = Some Dir.
Proof.
  assert (Hmiss : Forall (misses Demo.cube) ["no2"; "o3"]) by (repeat constructor).
  destruct (main_names_outputs_after_the_resolved_band
              (Demo.world ["o3"; "aod"; "unread"]) "in.nc" "1D" (Some "area.shp") "no2"
              200 2 Demo.cube ["no2"; "o3"] "aod" ["unread"] Demo.aod _ _ _
              eq_refl eq_refl Hmiss eq_refl (demo_mask _) (demo_dirs _) ltac:(lia)
              (demo_fair _))
    as [wf [calls [Hrun [_ [Hcalls [Hin Hdir]]]]]].
  exists wf, calls. split; [exact Hrun|]. split; [|split; [exact Hin | exact Hdir]].
  symmetry. exact (Forall2_length _ _ _ Hcalls).
Defined.

(** ** What a run changes in the file system *)

Section Frames.
Context `{lib : GeoLib}.

Lemma mkdirs_frame (dirs : list string) (exist_ok : bool) :
  forall (f f' : gmap string Node) (p : string),
    mkdirs dirs exist_ok f = inr f' -> p ∉ dirs -> f' !! p = f !! p.
Proof.
  induction dirs as [|d dirs IH]; intros f f' p Hrun Hp; simpl in Hrun.
  - by injection Hrun as <-.
  - apply not_elem_of_cons in Hp as [Hne Hp]. destruct dirs as [|d' dirs].
    + destruct (f !! d) as [[]|] eqn:Hd; try discriminate.
      * destruct exist_ok; [|discriminate]. by injection Hrun as <-.
      * injection Hrun as <-. by rewrite lookup_insert_ne.
    + destruct (f !! d) as [[]|] eqn:Hd; try discriminate.
      * by apply (IH f f' p).
      * rewrite (IH _ f' p Hrun Hp). by rewrite lookup_insert_ne.
Qed.

(** [makedirs] never replaces what exists. *)
Lemma mkdirs_preserves (dirs : list string) (exist_ok : bool) :
  forall (f f' : gmap string Node) (p : string) (n : Node),
    mkdirs dirs exist_ok f = inr f' -> f !! p = Some n -> f' !! p = Some n.
Proof.
  induction dirs as [|d dirs IH]; intros f f' p n Hrun Hp; simpl in Hrun.
  - by injection Hrun as <-.
  - assert (Hins : f !! d = None -> <[d:=Dir]> f !! p = Some n).
    { intros Hd. rewrite lookup_insert_ne; [exact Hp|]. intros ->. congruence. }
    destruct dirs as [|d' dirs].
    + destruct (f !! d) as [[]|] eqn:Hd; try discriminate.
      * destruct exist_ok; [|discriminate]. by injection Hrun as <-.
      * injection Hrun as <-. by apply Hins.
    + destruct (f !! d) as [[]|] eqn:Hd; try discriminate.
      * by apply (IH f f' p n).
      * apply (IH _ f' p n Hrun). by apply Hins.
Qed.

(** Either no task writes [p], or what [p] holds at the end does not depend
    on what the file system held before. *)
Lemma export_files_lookup_cases (band_name time_resolution : string)
  (shapefile : option GeoDataFrame) (ds : DataArray) (order : list nat) (p : string) :
  (forall g, export_files band_name time_resolution shapefile ds order g !! p = g !! p)
  \/ (forall g g', export_files band_name time_resolution shapefile ds order g !! p
                   = export_files band_name time_resolution shapefile ds order g' !! p).
Proof.
  unfold export_files.
  induction order as [|index order IH] using rev_ind; [by left|].
  destruct (da_time ds !! index) as [t|] eqn:Ht.
  - destruct (decide (export_path band_name time_resolution t = p)) as [<-|Hne].
    + right. intros g g'. rewrite !foldl_snoc, Ht. by rewrite !lookup_insert_eq.
    + destruct IH as [IH|IH]; [left; intros g | right; intros g g'];
        rewrite !foldl_snoc, Ht, !lookup_insert_ne by exact Hne; apply IH.
  - destruct IH as [IH|IH]; [left; intros g | right; intros g g'];
      rewrite !foldl_snoc, Ht; apply IH.
Qed.

(** Writing the same files in the same order a second time changes nothing. *)
Lemma export_files_twice (band_name time_resolution : string)
  (shapefile : option GeoDataFrame) (ds : DataArray) (order : list nat)
  (f : gmap string Node) :
  export_files band_name time_resolution shapefile ds order
    (export_files band_name time_resolution shapefile ds order f)
  = export_files band_name time_resolution shapefile ds order f.
Proof.
  apply map_eq. intros p.
  destruct (export_files_lookup_cases band_name time_resolution shapefile ds order p)
    as [H|H]; [apply H | apply H].
Qed.

End Frames.

Section BinFiles.
Context `{lib : GeoLib}.
Variables (band_name time_resolution : string).
Variable shapefile : option GeoDataFrame.
Variable ds : DataArray.

(** A path that is not the file name of any bin is not written. *)
Lemma export_files_untouched (order : list nat) (p : string) :
  (forall index t, da_time ds !! index = Some t ->
                   export_path band_name time_resolution t <> p) ->
  forall f : gmap string Node,
    export_files band_name time_resolution shapefile ds order f !! p = f !! p.
Proof.
  intros Hother. unfold export_files.
  induction order as [|index order IH]; intros f; simpl; [reflexivity|].
  rewrite IH. destruct (da_time ds !! index) as [t|] eqn:Ht; [|reflexivity].
  rewrite lookup_insert_ne; [reflexivity|]. by apply (Hother index).
Qed.

(** Bins on pairwise different days have pairwise different file names. *)
Lemma distinct_days_index (i j : nat) (ti tj : Timestamp) :
  NoDup (map date_of (da_time ds)) ->
  da_time ds !! i = Some ti -> da_time ds !! j = Some tj ->
  export_path band_name time_resolution ti = export_path band_name time_resolution tj ->
  i = j.
Proof.
  intros Hdays Hi Hj Hpath. apply export_path_same_iff_same_day in Hpath.
  apply (NoDup_lookup _ i j (date_of ti) Hdays).
  - by rewrite list_lookup_fmap, Hi.
  - by rewrite list_lookup_fmap, Hj, Hpath.
Qed.

(** With bins on pairwise different days, the file of a task that ran holds
    that task's raster, whenever the task ran. *)
Lemma export_files_lookup_bin (order : list nat) (i : nat) (t : Timestamp) :
  NoDup (map date_of (da_time ds)) ->
  da_time ds !! i = Some t ->
  i ∈ order ->
  forall f : gmap string Node,
    export_files band_name time_resolution shapefile ds order f
      !! export_path band_name time_resolution t
    = Some (GeoTIFF (exported shapefile ds i)).
Proof.
  intros Hdays Hi. unfold export_files.
  induction order as [|a order IH] using rev_ind; intros Hin f.
  - by apply elem_of_nil in Hin.
  - rewrite foldl_snoc. destruct (da_time ds !! a) as [ta|] eqn:Ha.
    + destruct (decide (export_path band_name time_resolution ta
                        = export_path band_name time_resolution t)) as [Hsame|Hne].
      * assert (a = i) as -> by (by apply (distinct_days_index a i ta t)).
        rewrite Hsame. apply lookup_insert_eq.
      * rewrite lookup_insert_ne by exact Hne. apply IH.
        apply elem_of_app in Hin as [Hin|Hin]; [exact Hin|].
        apply list_elem_of_singleton in Hin as ->. congruence.
    + apply IH. apply elem_of_app in Hin as [Hin|Hin]; [exact Hin|].
      apply list_elem_of_singleton in Hin as ->. congruence.
Qed.

(** A path that none of the tasks [order] names is not written. *)
Lemma export_files_skip (order : list nat) (p : string) :
  (forall index t, index ∈ order -> da_time ds !! index = Some t ->
                   export_path band_name time_resolution t <> p) ->
  forall f : gmap string Node,
    export_files band_name time_resolution shapefile ds order f !! p = f !! p.
Proof.
  unfold export_files.
  induction order as [|index order IH]; intros Hother f; simpl; [reflexivity|].
  rewrite IH.
  - destruct (da_time ds !! index) as [t|] eqn:Ht; [|reflexivity].
    rewrite lookup_insert_ne; [reflexivity|].
    apply (Hother index t); [apply list_elem_of_here | exact Ht].
  - intros i t Hi. apply Hother. by apply list_elem_of_further.
Qed.

(** With bins on pairwise different days, the order of the tasks does not
    change the files they leave. *)
Lemma export_files_any_order (order order' : list nat) (f : gmap string Node) :
  NoDup (map date_of (da_time ds)) ->
  order ≡ₚ order' ->
  export_files band_name time_resolution shapefile ds order f
  = export_files band_name time_resolution shapefile ds order' f.
Proof.
  intros Hdays Hperm. apply map_eq. intros p.
  destruct (decide (p ∈ omap (fun i => export_path band_name time_resolution
                                         <$> da_time ds !! i) order))
    as [Hin|Hnot].
  - apply list_elem_of_omap in Hin as [i [Hi Hp]].
    destruct (da_time ds !! i) as [t|] eqn:Ht; [|discriminate].
    injection Hp as <-.
    rewrite !(export_files_lookup_bin _ i t Hdays Ht); [reflexivity| |exact Hi].
    by rewrite <- Hperm.
  - assert (Hout : forall i t, i ∈ order -> da_time ds !! i = Some t ->
                                export_path band_name time_resolution t <> p).
    { intros i t Hi Ht <-. apply Hnot. apply list_elem_of_omap. exists i.
      split; [exact Hi|]. by rewrite Ht. }
    rewrite !export_files_skip; [reflexivity| |exact Hout].
    intros i t Hi. apply Hout. by rewrite Hperm.
Qed.

End BinFiles.

Lemma one_task_per_bin_witness :
  exists (wf : World) (calls : list Event),
    resample_and_export Demo.aod "aod" "1D" (Some "area.shp") 2 (Demo.world [])
    = (Return tt, wf)
    /\ length calls = 2
    /\ map fst (written_paths calls) ≡ₚ [0; 1].
Proof.
  destruct (one_task_per_bin Demo.aod "aod" "1D" (Some "area.shp") 2 (Demo.world [])
              _ _ _ (demo_mask []) (demo_dirs []) ltac:(lia) (demo_fair []))
    as [wf [calls [Hrun [_ [_ [Hlen Hperm]]]]]].
  exists wf, calls. split; [exact Hrun|]. split; [exact Hlen | exact Hperm].
Defined.

(** X3. The file name of a task keeps the calendar day of its time stamp and
    nothing else of it: two stamps get the same path exactly when their
    year, month and day agree, whatever their hours, minutes and seconds;
    and the day can be read back from the end of the name. *)
Theorem file_name_keeps_the_day_only `{lib : GeoLib} (band_name time_resolution : string)
  (t1 t2 : Timestamp) :
  (export_path band_name time_resolution t1 = export_path band_name time_resolution t2
   <-> (year t1, month t1, day t1) = (year t2, month t2, day t2))
  /\ parse_Ymd (strftime_Ymd t1 +:+ ".tif") = (year t1, month t1, day t1)
  /\ export_path band_name time_resolution t1
     = export_path band_name time_resolution
         (mkTimestamp (year t1) (month t1) (day t1) 0 0 0).
Proof.
  split; [apply export_path_same_iff_same_day|].
  split; [by apply parse_strftime_Ymd|].
  by apply export_path_same_iff_same_day.
Qed.

(** X4. When the bins of the resampled series fall on pairwise different
    calendar days, a complete run of lines 42-69 leaves, for every bin, a
    file at the path of its time stamp that holds the raster of that very
    bin (clipped if there is a mask), in whatever order the tasks
    completed. *)
Theorem every_bin_gets_its_file `{lib : GeoLib} (band : DataArray)
  (band_name time_resolution : string) (shp : option string) (num_workers : Z)
  (w : World) (shapefile : option GeoDataFrame) (evs : list Event)
  (f1 : gmap string Node) :
  MaskFor (resample_mean time_resolution None band) (fs w) shp shapefile evs ->
  mkdirs (path_prefixes EmptyString (EXPORT_DIR +:+ "/" +:+ band_name)) true (fs w) = inr f1 ->
  (1 <= num_workers)%Z ->
  fair w ->
  NoDup (map date_of (da_time (resample_mean time_resolution None band))) ->
  exists wf : World,
    resample_and_export band band_name time_resolution shp num_workers w = (Return tt, wf)
    /\ forall (index : nat) (t : Timestamp),
         da_time (resample_mean time_resolution None band) !! index = Some t ->
         fs wf !! export_path band_name time_resolution t
         = Some (GeoTIFF (exported shapefile (resample_mean time_resolution None band)
                            index)).
Proof.
  intros Hmask Hdirs Hworkers Hfair Hdays.
  exists (final_world band band_name time_resolution shapefile evs f1 w).
  split; [by apply resample_and_export_run with (evs := evs)|].
  intros index t Ht. rewrite fs_final_world.
  apply export_files_lookup_bin; [exact Hdays | exact Ht |].
  rewrite (Hfair _). apply elem_of_seq. apply lookup_lt_Some in Ht. lia.
Qed.

Lemma demo_days : NoDup (map date_of (da_time (@resample_mean Demo.lib "1D" None Demo.aod))).
Proof.
  apply NoDup_cons. split; [|apply NoDup_singleton].
  intros Hin. apply list_elem_of_singleton in Hin. discriminate.
Qed.

Lemma every_bin_gets_its_file_witness :
  exists wf : World,
    resample_and_export Demo.aod "aod" "1D" None 2 (Demo.world []) = (Return tt, wf)
    /\ fs wf !! "compressed/aod/1D__2021-03-02.tif"
       = Some (GeoTIFF (slice_of (@resample_mean Demo.lib "1D" None Demo.aod) 1)).
Proof.
  destruct (every_bin_gets_its_file Demo.aod "aod" "1D" None 2 (Demo.world [])
              None [] _ (mask_none _ _) (demo_dirs []) ltac:(lia) (demo_fair []) demo_days)
    as [wf [Hrun Hfiles]].
  exists wf. split; [exact Hrun|].
  exact (Hfiles 1 (Demo.at_ 2 0) eq_refl).
Defined.

(** X5. When the bins fall on pairwise different calendar days, the files a
    complete run leaves do not depend on the order in which the pool's
    workers complete the tasks: the same run under any other scheduler that
    completes every task ends normally with the same file system. *)
Theorem completion_order_does_not_matter `{lib : GeoLib} (band : DataArray)
  (band_name time_resolution : string) (shp : option string) (num_workers : Z)
  (w : World) (shapefile : option GeoDataFrame) (evs : list Event)
  (f1 : gmap string Node) (other_order : nat -> list nat) :
  MaskFor (resample_mean time_resolution None band) (fs w) shp shapefile evs ->
  mkdirs (path_prefixes EmptyString (EXPORT_DIR +:+ "/" +:+ band_name)) true (fs w) = inr f1 ->
  (1 <= num_workers)%Z ->
  fair w ->
  (forall n, other_order n ≡ₚ seq 0 n) ->
  NoDup (map date_of (da_time (resample_mean time_resolution None band))) ->
  exists wf wf' : World,
    resample_and_export band band_name time_resolution shp num_workers w = (Return tt, wf)
    /\ resample_and_export band band_name time_resolution shp num_workers
         (mkWorld (fs w) (stdin w) other_order (trace w))
       = (Return tt, wf')
    /\ fs wf' = fs wf.
Proof.
  intros Hmask Hdirs Hworkers Hfair Hother Hdays.
  exists (final_world band band_name time_resolution shapefile evs f1 w).
  exists (final_world band band_name time_resolution shapefile evs f1
            (mkWorld (fs w) (stdin w) other_order (trace w))).
  split; [by apply resample_and_export_run with (evs := evs)|].
  split; [by apply resample_and_export_run with (evs := evs)|].
  rewrite !fs_final_world. cbn [pool_order].
  apply export_files_any_order; [exact Hdays|].
  by rewrite (Hother _), (Hfair _).
Qed.

Lemma completion_order_does_not_matter_witness :
  exists wf wf' : World,
    resample_and_export Demo.aod "aod" "1D" None 2 (Demo.world []) = (Return tt, wf)
    /\ resample_and_export Demo.aod "aod" "1D" None 2
         (mkWorld Demo.disk [] (fun n => seq 0 n) [])
       = (Return tt, wf')
    /\ fs wf' = fs wf.
Proof.
  exact (completion_order_does_not_matter Demo.aod "aod" "1D" None 2 (Demo.world [])
           None [] _ (fun n => seq 0 n) (mask_none _ _) (demo_dirs []) ltac:(lia)
           (demo_fair []) (fun n => reflexivity _) demo_days).
Defined.

Section MaskFrame.
Context `{lib : GeoLib}.

Lemma pool_order_final_world (band : DataArray) (band_name time_resolution : string)
  (shapefile : option GeoDataFrame) (evs : list Event) (f1 : gmap string Node)
  (w : World) :
  pool_order (final_world band band_name time_resolution shapefile evs f1 w)
  = pool_order w.
Proof.
  unfold final_world. cbv zeta. cbn [log pool_order].
  generalize (pool_order w (length (da_time (resample_mean time_resolution None band)))).
  intros order.
  assert (Hkeep : forall w0 : World,
             pool_order (foldl (after_export band_name time_resolution shapefile
                                  (resample_mean time_resolution None band)) w0 order)
             = pool_order w0).
  { induction order as [|index order IH]; intros w0; simpl; [reflexivity|].
    rewrite IH. unfold after_export.
    by destruct (da_time (resample_mean time_resolution None band) !! index). }
  by rewrite Hkeep.
Qed.

(** A mask that could be built can be built again as long as the shapefile
    is still where it was. *)
Lemma MaskFor_same_shapes (ds : DataArray) (f f' : gmap string Node)
  (shp : option string) (shapefile : option GeoDataFrame) (evs : list Event) :
  MaskFor ds f shp shapefile evs ->
  (forall path, shp = Some path -> f' !! path = f !! path) ->
  MaskFor ds f' shp shapefile evs.
Proof.
  intros [|path shapes x0 x1 y0 y1 xs ys Hx Hy Hfile] Hsame.
  - constructor.
  - apply (mask_some ds f' path shapes x0 x1 y0 y1 xs ys Hx Hy).
    by rewrite (Hsame path eq_refl).
Qed.

End MaskFrame.

(** X6. A complete run of lines 42-69 only adds to the file system: whatever
    a path held before the run it still holds after it, unless the path is
    the file name of one of the bins; and a path that held nothing holds
    nothing afterwards, unless it is one of the directories made or the
    file name of one of the bins. *)
Theorem run_only_adds_directories_and_bin_files `{lib : GeoLib} (band : DataArray)
  (band_name time_resolution : string) (shp : option string) (num_workers : Z)
  (w : World) (shapefile : option GeoDataFrame) (evs : list Event)
  (f1 : gmap string Node) :
  MaskFor (resample_mean time_resolution None band) (fs w) shp shapefile evs ->
  mkdirs (path_prefixes EmptyString (EXPORT_DIR +:+ "/" +:+ band_name)) true (fs w) = inr f1 ->
  (1 <= num_workers)%Z ->
  fair w ->
  exists wf : World,
    resample_and_export band band_name time_resolution shp num_workers w = (Return tt, wf)
    /\ (forall (p : string) (n : Node),
          fs w !! p = Some n ->
          (forall index t,
             da_time (resample_mean time_resolution None band) !! index = Some t ->
             export_path band_name time_resolution t <> p) ->
          fs wf !! p = Some n)
    /\ (forall p : string,
          fs w !! p = None ->
          p ∉ path_prefixes EmptyString (EXPORT_DIR +:+ "/" +:+ band_name) ->
          (forall index t,
             da_time (resample_mean time_resolution None band) !! index = Some t ->
             export_path band_name time_resolution t <> p) ->
          fs wf !! p = None).
Proof.
  intros Hmask Hdirs Hworkers Hfair.
  exists (final_world band band_name time_resolution shapefile evs f1 w).
  split; [by apply resample_and_export_run with (evs := evs)|].
  split.
  - intros p n Hp Hother. rewrite fs_final_world, export_files_untouched by exact Hother.
    by apply (mkdirs_preserves _ _ _ _ _ _ Hdirs).
  - intros p Hp Hnot Hother.
    rewrite fs_final_world, export_files_untouched by exact Hother.
    by rewrite (mkdirs_frame _ _ _ _ _ Hdirs Hnot).
Qed.

Lemma run_only_adds_directories_and_bin_files_witness :
  exists wf : World,
    resample_and_export Demo.aod "aod" "1D" (Some "area.shp") 2 (Demo.world [])
    = (Return tt, wf)
    /\ fs wf !! "in.nc" = Some (NetCDF Demo.cube)
    /\ fs wf !! "compressed/aod/1D__2021-03-03.tif" = None.
Proof.
  destruct (run_only_adds_directories_and_bin_files Demo.aod "aod" "1D" (Some "area.shp") 2
              (Demo.world []) _ _ _ (demo_mask []) (demo_dirs []) ltac:(lia) (demo_fair []))
    as [wf [Hrun [Hkept Hnone]]].
  exists wf. split; [exact Hrun|]. split.
  - apply Hkept; [reflexivity|].
    intros [|[|index]] t Ht; [injection Ht as <-; discriminate ..|discriminate Ht].
  - apply Hnone; [reflexivity | |].
    + intros Hin. repeat (apply elem_of_cons in Hin as [Hin|Hin]; [discriminate Hin|]).
      by apply elem_of_nil in Hin.
    + intros [|[|index]] t Ht; [injection Ht as <-; discriminate ..|discriminate Ht].
Defined.

(** X7. Running lines 42-69 a second time in the world the first run left,
    with the same arguments and the same completion order, ends normally and
    changes no file: every raster is written again at the same path with the
    same content. The shapefile, if any, must not itself be the file name of
    a bin. *)
Theorem second_run_changes_no_file `{lib : GeoLib} (band : DataArray)
  (band_name time_resolution : string) (shp : option string) (num_workers : Z)
  (w : World) (shapefile : option GeoDataFrame) (evs : list Event)
  (f1 : gmap string Node) :
  MaskFor (resample_mean time_resolution None band) (fs w) shp shapefile evs ->
  mkdirs (path_prefixes EmptyString (EXPORT_DIR +:+ "/" +:+ band_name)) true (fs w) = inr f1 ->
  (1 <= num_workers)%Z ->
  fair w ->
  (forall path t, shp = Some path -> export_path band_name time_resolution t <> path) ->
  exists wf wf2 : World,
    resample_and_export band band_name time_resolution shp num_workers w = (Return tt, wf)
    /\ resample_and_export band band_name time_resolution shp num_workers wf
       = (Return tt, wf2)
    /\ fs wf2 = fs wf.
Proof.
  intros Hmask Hdirs Hworkers Hfair Hshp.
  set (ds := resample_mean time_resolution None band).
  set (wf := final_world band band_name time_resolution shapefile evs f1 w).
  assert (Hfs : fs wf = export_files band_name time_resolution shapefile ds
                          (pool_order w (length (da_time ds))) f1)
    by apply fs_final_world.
  assert (Hdirs2 : mkdirs (path_prefixes EmptyString (EXPORT_DIR +:+ "/" +:+ band_name))
                     true (fs wf) = inr (fs wf)).
  { apply mkdirs_existing. rewrite Hfs. by apply (dirs_survive_exports _ _ _ _ _ (fs w)). }
  assert (Hmask2 : MaskFor ds (fs wf) shp shapefile evs).
  { apply (MaskFor_same_shapes ds (fs w)); [exact Hmask|].
    intros path Hpath. rewrite Hfs, export_files_other.
    - destruct Hmask as [|path' shapes x0 x1 y0 y1 xs ys Hx Hy Hfile]; [discriminate|].
      injection Hpath as ->.
      by rewrite (mkdirs_preserves _ _ _ _ _ _ Hdirs Hfile).
    - intros t. by apply Hshp. }
  assert (Horder : pool_order wf = pool_order w) by apply pool_order_final_world.
  assert (Hfair2 : fair wf) by (intros n; rewrite Horder; exact (Hfair n)).
  exists wf, (final_world band band_name time_resolution shapefile evs (fs wf) wf).
  split; [by apply resample_and_export_run with (evs := evs)|].
  split; [exact (resample_and_export_run band band_name time_resolution shp num_workers wf
                   shapefile evs (fs wf) Hmask2 Hdirs2 Hworkers Hfair2)|].
  rewrite fs_final_world. fold ds.
  rewrite Horder, Hfs. apply export_files_twice.
Qed.

Lemma second_run_changes_no_file_witness :
  exists wf wf2 : World,
    resample_and_export Demo.aod "aod" "12H" (Some "area.shp") 2 (Demo.world [])
    = (Return tt, wf)
    /\ resample_and_export Demo.aod "aod" "12H" (Some "area.shp") 2 wf = (Return tt, wf2)
    /\ fs wf2 = fs wf.
Proof.
  apply (second_run_changes_no_file Demo.aod "aod" "12H" (Some "area.shp") 2 (Demo.world [])
           (Some (mask_of Demo.region
                    (Qmin (Qabs ((9 # 2) - (4 # 1))) (Qabs ((49 # 1) - (50 # 1))) / 2)%Q))
           (mask_calls "area.shp"
              (Qmin (Qabs ((9 # 2) - (4 # 1))) (Qabs ((49 # 1) - (50 # 1))) / 2)%Q)
           (<["compressed/aod" := Dir]> (<["compressed" := Dir]> Demo.disk))).
  - apply (mask_some _ _ "area.shp" Demo.region (4 # 1) (9 # 2) (50 # 1) (49 # 1)
             [5 # 1]%Q []); reflexivity.
  - reflexivity.
  - lia.
  - apply demo_fair.
  - intros path t [= <-]. unfold export_path. discriminate.
Defined.

(** ** What a computation leaves alone *)

Section Keeps.
Context `{lib : GeoLib}.
Context {X : Type}.
Variable part : World -> X.
Hypothesis part_log : forall evs w, part (log evs w) = part w.

Lemma keeps_ret {A} (a : A) : keeps part (ret a).
Proof. intros w. reflexivity. Qed.

Lemma keeps_raise {A} (e : Exn) : keeps part (raise (A := A) e).
Proof. intros w. reflexivity. Qed.

Lemma keeps_emit (e : Event) : keeps part (emit e).
Proof. intros w. apply part_log. Qed.

Lemma keeps_get_fs : keeps part get_fs.
Proof. intros w. reflexivity. Qed.

Lemma keeps_bind {A B} (m : M A) (k : A -> M B) :
  keeps part m -> (forall a, keeps part (k a)) -> keeps part (bind m k).
Proof.
  intros Hm Hk w. unfold bind. specialize (Hm w).
  destruct (m w) as [[a|e|c] w']; simpl in *; try exact Hm.
  by rewrite Hk.
Qed.

Lemma keeps_for_each {A} (l : list A) (body : A -> M unit) :
  (forall a, keeps part (body a)) -> keeps part (for_each l body).
Proof.
  intros Hbody. induction l as [|a l IH]; simpl.
  - apply keeps_ret.
  - apply keeps_bind; [apply Hbody | intros _; exact IH].
Qed.

Lemma keeps_imap_unordered (task : nat -> M unit) (n : nat) :
  (forall i, keeps part (task i)) -> keeps part (imap_unordered task n).
Proof. intros Htask w. unfold imap_unordered. by apply keeps_for_each. Qed.

End Keeps.

(** Decomposes a goal [keeps part m] along the structure of [m]. *)
Ltac keeps_step :=
  first
    [ apply keeps_ret | apply keeps_raise | apply keeps_get_fs
    | apply keeps_emit; reflexivity
    | apply keeps_bind; [| intros ?]
    | apply keeps_for_each; intros ?
    | apply keeps_imap_unordered; intros ?
    | solve [intros ?; reflexivity] ].

Section Quiet.
Context `{lib : GeoLib}.

Lemma build_mask_keeps_fs (shp : option string) (ds : DataArray) :
  keeps fs (build_mask shp ds).
Proof.
  unfold build_mask. destruct shp as [path|]; [|by apply keeps_ret].
  unfold tqdm_write, spatial_resolution, coord, read_file, to_crs, simplify_geometry.
  repeat (first [ match goal with
                  | |- keeps _ (match ?x with _ => _ end) => destruct x
                  end | keeps_step ]).
Qed.

Lemma build_mask_writes_nothing (shp : option string) (ds : DataArray) :
  emits (fun e => negb (is_ToRaster e) && negb (is_MadeDirs e)) (build_mask shp ds).
Proof.
  unfold build_mask. destruct shp as [path|]; [|apply emits_ret].
  unfold tqdm_write, spatial_resolution, coord, read_file, to_crs, simplify_geometry.
  repeat (first [ emits_step | match goal with
                               | |- emits _ (match ?x with _ => _ end) => destruct x
                               end ]).
Qed.

Lemma resample_and_export_keeps_stdin (band : DataArray)
  (band_name time_resolution : string) (shp : option string) (num_workers : Z) :
  keeps stdin (resample_and_export band band_name time_resolution shp num_workers).
Proof.
  unfold resample_and_export, resample_then_mean, build_mask, makedirs, Pool.
  apply keeps_bind; [repeat keeps_step | intros ds].
  apply keeps_bind; [| intros shapefile].
  { destruct shp as [path|]; [|by apply keeps_ret].
    unfold tqdm_write, spatial_resolution, coord, read_file, to_crs, simplify_geometry.
    repeat (first [ match goal with
                    | |- keeps _ (match ?x with _ => _ end) => destruct x
                    end | keeps_step ]). }
  unfold tqdm_write, _export_raster, time_at, isel, to_raster, put_fs.
  repeat (first [ match goal with
                  | |- keeps _ (match ?x with _ => _ end) => destruct x
                  | |- keeps _ (if ?x then _ else _) => destruct x
                  end | keeps_step ]).
Qed.

Lemma resample_and_export_is_quiet (band : DataArray)
  (band_name time_resolution : string) (shp : option string) (num_workers : Z) :
  emits (fun e => negb (is_Opened e) && negb (is_Prompted e))
        (resample_and_export band band_name time_resolution shp num_workers).
Proof.
  unfold resample_and_export, resample_then_mean, build_mask, makedirs, Pool.
  apply emits_bind; [repeat emits_step | intros ds].
  apply emits_bind.
  { destruct shp as [path|]; [|apply emits_ret].
    unfold tqdm_write, spatial_resolution, coord, read_file, to_crs, simplify_geometry.
    repeat (first [ emits_step | match goal with
                                 | |- emits _ (match ?x with _ => _ end) => destruct x
                                 end ]). }
  intros shapefile.
  unfold tqdm_write, _export_raster, time_at, isel, to_raster.
  repeat (first [ emits_step | match goal with
                               | |- emits _ (match ?x with _ => _ end) => destruct x
                               | |- emits _ (if ?x then _ else _) => destruct x
                               end ]).
Qed.

End Quiet.

(** X8. Once the band is selected the run is not interactive: whatever
    their outcome, lines 42-69 leave standard input as it was, never prompt
    and never open the cube again. *)
Theorem processing_is_not_interactive `{lib : GeoLib} (band : DataArray)
  (band_name time_resolution : string) (shp : option string) (num_workers : Z)
  (w : World) :
  stdin (snd (resample_and_export band band_name time_resolution shp num_workers w))
  = stdin w
  /\ exists evs,
       trace (snd (resample_and_export band band_name time_resolution shp num_workers w))
       = trace w ++ evs
       /\ forallb (fun e => negb (is_Opened e) && negb (is_Prompted e)) evs = true.
Proof.
  split.
  - apply resample_and_export_keeps_stdin.
  - apply resample_and_export_is_quiet.
Qed.

(** X9. If the mask builder raises, for whatever reason, lines 42-69 stop
    with that exception before the output directory is made: the file system
    is as before the run, and the log has neither a [makedirs] nor a
    [to_raster] call. *)
Theorem mask_failure_leaves_no_output `{lib : GeoLib} (band : DataArray)
  (band_name time_resolution : string) (shp : option string) (num_workers : Z)
  (w w2 : World) (e : Exn) :
  build_mask shp (resample_mean time_resolution None band)
    (log [Resampled time_resolution "time" None] w) = (Raise e, w2) ->
  resample_and_export band band_name time_resolution shp num_workers w = (Raise e, w2)
  /\ fs w2 = fs w
  /\ exists evs,
       trace w2 = trace w ++ evs
       /\ forallb (fun e => negb (is_ToRaster e) && negb (is_MadeDirs e)) evs = true.
Proof.
  intros Hmask. split; [|split].
  - unfold resample_and_export, resample_then_mean.
    unfold bind at 1. unfold bind at 1. unfold emit at 1. unfold ret at 1.
    unfold bind at 1. by rewrite Hmask.
  - assert (H := build_mask_keeps_fs shp (resample_mean time_resolution None band)
                   (log [Resampled time_resolution "time" None] w)).
    by rewrite Hmask in H.
  - assert (H := build_mask_writes_nothing shp (resample_mean time_resolution None band)
                   (log [Resampled time_resolution "time" None] w)).
    rewrite Hmask in H. simpl in H.
    eapply adds_trans; [|exact H]. by apply adds_log.
Qed.

Lemma mask_failure_leaves_no_output_witness :
  resample_and_export Demo.aod "aod" "1D" (Some "nowhere.shp") 2 (Demo.world [])
  = (Raise (OtherError "DriverError"),
     log [Resampled "1D" "time" None;
          Wrote ("Loading and simplifying shapefile..." +:+ NL);
          ReadShapes "nowhere.shp"] (Demo.world [])).
Proof.
  apply (mask_failure_leaves_no_output Demo.aod "aod" "1D" (Some "nowhere.shp") 2
           (Demo.world [])).
  reflexivity.
Defined.

(** X10. With fewer than one worker the pool cannot be made: the run raises
    [ValueError] after the resampling, the mask and the creation of the
    output directory, which therefore exists, and before any task: nothing
    is exported and the closing line is not written. *)
Theorem no_worker_no_export `{lib : GeoLib} (band : DataArray)
  (band_name time_resolution : string) (shp : option string) (num_workers : Z)
  (w : World) (shapefile : option GeoDataFrame) (evs : list Event)
  (f1 : gmap string Node) :
  MaskFor (resample_mean time_resolution None band) (fs w) shp shapefile evs ->
  mkdirs (path_prefixes EmptyString (EXPORT_DIR +:+ "/" +:+ band_name)) true (fs w) = inr f1 ->
  (num_workers < 1)%Z ->
  resample_and_export band band_name time_resolution shp num_workers w
  = (Raise (OtherError "ValueError"),
     set_fs f1
       (log (Resampled time_resolution "time" None
             :: evs ++ [MadeDirs (EXPORT_DIR +:+ "/" +:+ band_name) true]) w))
  /\ f1 !! (EXPORT_DIR +:+ "/" +:+ band_name) = Some Dir.
Proof.
  intros Hmask Hdirs Hworkers. split.
  - unfold resample_and_export, resample_then_mean.
    unfold bind at 1. unfold bind at 1. unfold emit at 1. unfold ret at 1.
    unfold bind at 1.
    rewrite (build_mask_for shapefile _ shp evs
               (log [Resampled time_resolution "time" None] w)) by exact Hmask.
    unfold makedirs.
    unfold bind at 1. unfold bind at 1. unfold emit at 1.
    unfold bind at 1. unfold get_fs at 1. rewrite !fs_log, Hdirs.
    unfold put_fs at 1. unfold bind at 1. unfold Pool.
    destruct (Z.ltb_spec num_workers 1) as [_|Hge]; [|lia].
    unfold raise, set_fs. rewrite !log_log. reflexivity.
  - apply (proj1 (Forall_forall _ _) (mkdirs_makes_dirs _ _ _ Hdirs)).
    exact (path_prefixes_target _ EmptyString).
Qed.

Lemma no_worker_no_export_witness :
  resample_and_export Demo.aod "aod" "1D" None 0 (Demo.world [])
  = (Raise (OtherError "ValueError"),
     set_fs (<["compressed/aod" := Dir]> (<["compressed" := Dir]> Demo.disk))
       (log [Resampled "1D" "time" None; MadeDirs "compressed/aod" true] (Demo.world []))).
Proof.
  exact (proj1 (no_worker_no_export Demo.aod "aod" "1D" None 0 (Demo.world []) None [] _
                  (mask_none _ _) (demo_dirs []) ltac:(lia))).
Defined.

Section Blocked.
Context `{lib : GeoLib}.

(** [exist_ok=True] forgives an existing directory, not an existing file. *)
Lemma mkdirs_blocked (parents : list string) (target : string) (n : Node)
  (f : gmap string Node) :
  Forall (fun d => f !! d = Some Dir) parents ->
  f !! target = Some n -> n <> Dir ->
  mkdirs (parents ++ [target]) true f = inl FileExistsError.
Proof.
  intros Hparents Htarget Hfile.
  induction Hparents as [|d parents Hd _ IH]; simpl.
  - rewrite Htarget. by destruct n.
  - rewrite Hd. destruct (parents ++ [target]) eqn:Hlist; [|exact IH].
    by destruct parents.
Qed.

End Blocked.

(** X11. When the path of the output directory is taken by something that is
    not a directory, below parents that are directories, the run raises
    [FileExistsError] at [makedirs] in spite of [exist_ok=True]: this happens
    after the resampling and the mask, nothing is exported, and the file
    system is as before the run. *)
Theorem file_in_place_of_directory_stops_the_run `{lib : GeoLib} (band : DataArray)
  (band_name time_resolution : string) (shp : option string) (num_workers : Z)
  (w : World) (shapefile : option GeoDataFrame) (evs : list Event)
  (parents : list string) (n : Node) :
  MaskFor (resample_mean time_resolution None band) (fs w) shp shapefile evs ->
  path_prefixes EmptyString (EXPORT_DIR +:+ "/" +:+ band_name)
  = parents ++ [EXPORT_DIR +:+ "/" +:+ band_name] ->
  Forall (fun d => fs w !! d = Some Dir) parents ->
  fs w !! (EXPORT_DIR +:+ "/" +:+ band_name) = Some n ->
  n <> Dir ->
  resample_and_export band band_name time_resolution shp num_workers w
  = (Raise FileExistsError,
     log (Resampled time_resolution "time" None
          :: evs ++ [MadeDirs (EXPORT_DIR +:+ "/" +:+ band_name) true]) w).
Proof.
  intros Hmask Hsplit Hparents Htarget Hfile.
  unfold resample_and_export, resample_then_mean.
  unfold bind at 1. unfold bind at 1. unfold emit at 1. unfold ret at 1.
  unfold bind at 1.
  rewrite (build_mask_for shapefile _ shp evs
             (log [Resampled time_resolution "time" None] w)) by exact Hmask.
  unfold makedirs.
  unfold bind at 1. unfold bind at 1. unfold emit at 1.
  unfold bind at 1. unfold get_fs at 1.
  rewrite !fs_log, Hsplit, (mkdirs_blocked parents _ n (fs w) Hparents Htarget Hfile).
  unfold raise. rewrite !log_log. reflexivity.
Qed.

Lemma file_in_place_of_directory_stops_the_run_witness :
  resample_and_export Demo.aod "aod" "1D" None 2
    (mkWorld (<["compressed/aod" := OtherFile]> (<["compressed" := Dir]> Demo.disk))
       [] (fun n => seq 0 n) [])
  = (Raise FileExistsError,
     log [Resampled "1D" "time" None; MadeDirs "compressed/aod" true]
       (mkWorld (<["compressed/aod" := OtherFile]> (<["compressed" := Dir]> Demo.disk))
          [] (fun n => seq 0 n) [])).
Proof.
  apply (file_in_place_of_directory_stops_the_run Demo.aod "aod" "1D" None 2
           (mkWorld (<["compressed/aod" := OtherFile]> (<["compressed" := Dir]> Demo.disk))
              [] (fun n => seq 0 n) [])
           None [] ["compressed"] OtherFile).
  - apply mask_none.
  - reflexivity.
  - repeat constructor.
  - reflexivity.
  - discriminate.
Defined.

(** X12. The tolerance of lines 48-49 does not depend on the direction of the
    axes: a grid whose first two x coordinates, or first two y coordinates,
    come in the opposite order (a descending axis instead of an ascending
    one) gets the same tolerance; and the tolerance is never negative. *)
Theorem tolerance_ignores_axis_direction `{lib : GeoLib} (ds flipped : DataArray)
  (x0 x1 y0 y1 : Q) (xs ys xs' ys' : list Q) (w : World) :
  da_x ds = x0 :: x1 :: xs ->
  da_y ds = y0 :: y1 :: ys ->
  da_x flipped = x1 :: x0 :: xs' ->
  da_y flipped = y1 :: y0 :: ys' ->
  exists tolerance : Q,
    spatial_resolution ds w = (Return tolerance, w)
    /\ spatial_resolution flipped w = (Return tolerance, w)
    /\ (0 <= tolerance)%Q.
Proof.
  intros Hx Hy Hx' Hy'.
  exists (Qmin (Qabs (x1 - x0)) (Qabs (y1 - y0)) / 2)%Q.
  split; [by apply (spatial_resolution_grid ds w x0 x1 y0 y1 xs ys)|].
  split.
  - rewrite (spatial_resolution_grid flipped w x1 x0 y1 y0 xs' ys' Hx' Hy').
    by rewrite (Qabs_Qminus x0 x1), (Qabs_Qminus y0 y1).
  - apply Qle_shift_div_l; [reflexivity|]. rewrite Qmult_0_l.
    apply Q.min_glb; apply Qabs_nonneg.
Qed.

Lemma tolerance_ignores_axis_direction_witness :
  exists tolerance : Q,
    spatial_resolution Demo.aod (Demo.world []) = (Return tolerance, Demo.world [])
    /\ spatial_resolution
         (mkDataArray (da_time Demo.aod) [49 # 1; 50 # 1]%Q [9 # 2; 4 # 1; 5 # 1]%Q
            (da_values Demo.aod)) (Demo.world [])
       = (Return tolerance, Demo.world [])
    /\ (0 <= tolerance)%Q.
Proof.
  exact (tolerance_ignores_axis_direction Demo.aod
           (mkDataArray (da_time Demo.aod) [49 # 1; 50 # 1]%Q [9 # 2; 4 # 1; 5 # 1]%Q
              (da_values Demo.aod))
           (4 # 1) (9 # 2) (50 # 1) (49 # 1) [5 # 1]%Q [] [5 # 1]%Q [] (Demo.world [])
           eq_refl eq_refl eq_refl eq_refl).
Defined.
